(** * Cluster boot benchmark: timing measurement and aggregation

    A shallow embedding of
    [perfkitbenchmarker/linux_benchmarks/cluster_boot_benchmark.py]:
    [GetTimeToBoot], [_MeasureReboot], [MeasureDelete] and
    [_GetVmOperationDataSamples], with the properties of the samples they
    return.

    Timestamps are seconds on a discrete scale (integers); the code only
    subtracts, compares and takes maxima of them.  A timestamp attribute of
    a virtual machine is [None] until the provisioning layer sets it, hence
    [option Z].  Python exceptions are the [Raise] results of an error
    monad. *)

From Stdlib Require Import ZArith String Ascii Bool Lia DecimalString.
From Stdlib Require Import List ListSet Sorted Permutation.
Import ListNotations.

Local Open Scope Z_scope.

(** * The program *)

(** ** Python values and exceptions *)

Inductive PyError : Type :=
| AssertionError
| TypeError
| ValueError.

Inductive result (A : Type) : Type :=
| Ok (a : A)
| Raise (e : PyError).

Arguments Ok {A} a.
Arguments Raise {A} e.

Definition bind {A B : Type} (r : result A) (k : A -> result B) : result B :=
  match r with
  | Ok a => k a
  | Raise e => Raise e
  end.

Notation "x <- c ;; k" := (bind c (fun x => k))
  (at level 61, c at next level, right associativity).
Notation "c ;;; k" := (bind c (fun _ => k))
  (at level 61, right associativity).

(** [bool(t)] of a timestamp attribute: [None] and [0] are falsy. *)
Definition truthy (t : option Z) : bool :=
  match t with
  | Some z => negb (z =? 0)
  | None => false
  end.

(** [a - b]; a [None] operand raises [TypeError]. *)
Definition py_sub (a b : option Z) : result Z :=
  match a, b with
  | Some x, Some y => Ok (x - y)
  | _, _ => Raise TypeError
  end.

(** [a >= b], [a < b] and [a > b]; ordering [None] raises [TypeError]. *)
Definition py_ge (a b : option Z) : result bool :=
  match a, b with
  | Some x, Some y => Ok (y <=? x)
  | _, _ => Raise TypeError
  end.

Definition py_lt (a b : option Z) : result bool :=
  match a, b with
  | Some x, Some y => Ok (x <? y)
  | _, _ => Raise TypeError
  end.

Definition py_gt (a b : option Z) : result bool :=
  match a, b with
  | Some x, Some y => Ok (y <? x)
  | _, _ => Raise TypeError
  end.

(** [assert b]. *)
Definition py_assert (b : bool) : result unit :=
  if b then Ok tt else Raise AssertionError.

(** [min(iterable)]: the first item is the candidate, each later item
    replaces it when [item < candidate]; an empty iterable raises
    [ValueError].  A single item is returned without any comparison. *)
Fixpoint py_min_from (cur : option Z) (rest : list (option Z))
  : result (option Z) :=
  match rest with
  | [] => Ok cur
  | item :: rest' =>
      lt <- py_lt item cur ;;
      py_min_from (if lt then item else cur) rest'
  end.

Definition py_min (l : list (option Z)) : result (option Z) :=
  match l with
  | [] => Raise ValueError
  | x :: rest => py_min_from x rest
  end.

(** [max(iterable)], likewise with [item > candidate]. *)
Fixpoint py_max_from (cur : option Z) (rest : list (option Z))
  : result (option Z) :=
  match rest with
  | [] => Ok cur
  | item :: rest' =>
      gt <- py_gt item cur ;;
      py_max_from (if gt then item else cur) rest'
  end.

Definition py_max (l : list (option Z)) : result (option Z) :=
  match l with
  | [] => Raise ValueError
  | x :: rest => py_max_from x rest
  end.

(** [max(a, b)] on two numbers: [b] only when [b > a]. *)
Definition py_max2 (a b : Z) : Z := if a <? b then b else a.

(** [[f(x) for x in l]] where [f] may raise. *)
Fixpoint map_result {A B : Type} (f : A -> result B) (l : list A)
  : result (list B) :=
  match l with
  | [] => Ok []
  | a :: l' =>
      b <- f a ;;
      bs <- map_result f l' ;;
      Ok (b :: bs)
  end.

(** [f] over the items of a list and their indices, counted from [i]. *)
Fixpoint mapi {A B : Type} (f : nat -> A -> B) (i : nat) (l : list A)
  : list B :=
  match l with
  | [] => []
  | a :: l' => f i a :: mapi f (S i) l'
  end.

(** [float(z)]: the double nearest to the integer [z], ties going to the
    even mantissa of 53 bits; a double of magnitude [2^53] or more is a
    whole number, kept here as that number.  Python has no double for an
    integer of magnitude [2^1024 - 2^970] or more and raises
    [OverflowError] there, which this total function leaves out. *)
Definition float_of_int (z : Z) : Z :=
  let a := Z.abs z in
  if a <? 2 ^ 53 then z
  else
    let e := Z.log2 a - 52 in
    let q := Z.shiftr a e in
    let r := a - Z.shiftl q e in
    let half := 2 ^ (e - 1) in
    let q' :=
      if (half <? r) || ((r =? half) && Z.odd q) then q + 1 else q in
    Z.sgn z * Z.shiftl q' e.

(** ['%0.1f' % z] for a whole number of seconds [z]: [z] is converted to a
    double and printed with one decimal, which is [0]. *)
Definition format_0_1f (z : Z) : string :=
  (NilZero.string_of_int (Z.to_int (float_of_int z)) ++ ".0")%string.

(** [sorted(s)] on strings, and [','.join]. *)
Fixpoint insert_sorted (s : string) (l : list string) : list string :=
  match l with
  | [] => [s]
  | x :: l' => if String.leb s x then s :: l else x :: insert_sorted s l'
  end.

Definition sorted (l : list string) : list string :=
  fold_right insert_sorted [] l.

Definition join (sep : string) (l : list string) : string :=
  String.concat sep l.

(** ** Data model *)

(** The attributes of a virtual machine that the benchmark reads.
    [is_linux] is [isinstance(vm, linux_virtual_machine.BaseLinuxMixin)]. *)
Record VirtualMachine : Type := {
  OS_TYPE : string;
  is_linux : bool;
  create_start_time : option Z;
  create_return_time : option Z;
  is_running_time : option Z;
  ssh_external_time : option Z;
  ssh_internal_time : option Z;
  bootable_time : option Z;
  port_listening_time : option Z;
  rdp_port_listening_time : option Z;
  delete_start_time : option Z;
  delete_end_time : option Z
}.

(** The values of a metadata dictionary are numbers or strings. *)
Inductive MetaValue : Type :=
| MInt (n : Z)
| MStr (s : string).

Definition Metadata : Type := list (string * MetaValue).

(** [sample.Sample(metric, value, unit, metadata)]. *)
Record Sample : Type := {
  metric : string;
  value : Z;
  unit_ : string;
  metadata : Metadata
}.

(** The command-line flags the benchmark reads. *)
Record Flags : Type := {
  cluster_boot_time_reboot : bool;
  cluster_boot_test_port_listening : bool;
  cluster_boot_test_rdp_port_listening : bool
}.

(** ** [GetTimeToBoot] *)

(** The variables the loop of [GetTimeToBoot] updates. *)
Record BootVars : Type := {
  samples : list Sample;
  os_types : set string;
  max_create_delay_sec : Z;
  max_boot_time_sec : Z;
  max_port_listening_time_sec : Z;
  max_rdp_port_listening_time_sec : Z
}.

Definition boot_vars_init : BootVars :=
  {| samples := [];
     os_types := empty_set string;
     max_create_delay_sec := 0;
     max_boot_time_sec := 0;
     max_port_listening_time_sec := 0;
     max_rdp_port_listening_time_sec := 0 |}.

Definition seconds : string := "seconds".

Definition instance_metadata (i num_vms : nat) (vm : VirtualMachine)
  (create_delay_sec : Z) : Metadata :=
  [ ("machine_instance"%string, MInt (Z.of_nat i));
    ("num_vms"%string, MInt (Z.of_nat num_vms));
    ("os_type"%string, MStr (OS_TYPE vm));
    ("create_delay_sec"%string, MStr (format_0_1f create_delay_sec)) ].

(** [min(vm.create_start_time for vm in vms)], the time that metrics are
    measured against. *)
Definition min_create_start_time (vms : list VirtualMachine)
  : result (option Z) :=
  py_min (map create_start_time vms).

(** [vm.create_start_time - min_create_start_time]. *)
Definition create_delay_sec (vm : VirtualMachine) (reference : option Z)
  : result Z :=
  py_sub (create_start_time vm) reference.

(** One iteration of [for i, vm in enumerate(vms)]. *)
Definition boot_step (FLAGS : Flags) (num_vms : nat)
  (min_create_start_time : option Z) (st : BootVars) (i : nat)
  (vm : VirtualMachine) : result BootVars :=
  py_assert (truthy (create_start_time vm)) ;;;
  py_assert (truthy (bootable_time vm)) ;;;
  ordered <- py_ge (bootable_time vm) (create_start_time vm) ;;
  py_assert ordered ;;;
  let os_types' := set_add string_dec (OS_TYPE vm) (os_types st) in
  delay <- create_delay_sec vm min_create_start_time ;;
  let max_create_delay_sec' := py_max2 (max_create_delay_sec st) delay in
  let metadata := instance_metadata i num_vms vm delay in
  (* TIME TO CREATE ASYNC RETURN *)
  samples1 <-
    (if truthy (create_return_time vm) then
       time_to_create_sec <-
         py_sub (create_return_time vm) min_create_start_time ;;
       Ok (samples st ++
             [Build_Sample "Time to Create Async Return"
                time_to_create_sec seconds metadata])
     else Ok (samples st)) ;;
  (* TIME TO RUNNING *)
  samples2 <-
    (if truthy (is_running_time vm) then
       time_to_running_sec <-
         py_sub (is_running_time vm) (create_start_time vm) ;;
       Ok (samples1 ++
             [Build_Sample "Time to Running" time_to_running_sec seconds
                metadata])
     else Ok samples1) ;;
  (* TIME TO SSH *)
  boot_time_sec <- py_sub (bootable_time vm) min_create_start_time ;;
  samples4 <-
    (if is_linux vm then
       samples3 <-
         (if truthy (ssh_external_time vm) then
            t <- py_sub (ssh_external_time vm) min_create_start_time ;;
            Ok (samples2 ++
                  [Build_Sample "Time to SSH - External" t seconds
                     metadata])
          else Ok samples2) ;;
       (if truthy (ssh_internal_time vm) then
          t <- py_sub (ssh_internal_time vm) min_create_start_time ;;
          Ok (samples3 ++
                [Build_Sample "Time to SSH - Internal" t seconds
                   metadata])
        else Ok samples3)
     else Ok samples2) ;;
  (* TIME TO PORT LISTENING *)
  let max_boot_time_sec' := py_max2 (max_boot_time_sec st) boot_time_sec in
  let samples5 :=
    samples4 ++ [Build_Sample "Boot Time" boot_time_sec seconds metadata] in
  port <-
    (if cluster_boot_test_port_listening FLAGS then
       py_assert (truthy (port_listening_time vm)) ;;;
       ordered <- py_ge (port_listening_time vm) (create_start_time vm) ;;
       py_assert ordered ;;;
       port_listening_time_sec <-
         py_sub (port_listening_time vm) min_create_start_time ;;
       Ok (py_max2 (max_port_listening_time_sec st) port_listening_time_sec,
           samples5 ++
             [Build_Sample "Port Listening Time" port_listening_time_sec
                seconds metadata])
     else Ok (max_port_listening_time_sec st, samples5)) ;;
  (* TIME TO RDP LISTENING *)
  rdp <-
    (if cluster_boot_test_rdp_port_listening FLAGS then
       py_assert (truthy (rdp_port_listening_time vm)) ;;;
       ordered <- py_ge (rdp_port_listening_time vm) (create_start_time vm) ;;
       py_assert ordered ;;;
       rdp_port_listening_time_sec <-
         py_sub (rdp_port_listening_time vm) min_create_start_time ;;
       Ok (py_max2 (max_rdp_port_listening_time_sec st)
             rdp_port_listening_time_sec,
           snd port ++
             [Build_Sample "RDP Port Listening Time"
                rdp_port_listening_time_sec seconds metadata])
     else Ok (max_rdp_port_listening_time_sec st, snd port)) ;;
  Ok {| samples := snd rdp;
        os_types := os_types';
        max_create_delay_sec := max_create_delay_sec';
        max_boot_time_sec := max_boot_time_sec';
        max_port_listening_time_sec := fst port;
        max_rdp_port_listening_time_sec := fst rdp |}.

(** The loop, from index [i] on. *)
Fixpoint boot_loop (FLAGS : Flags) (num_vms : nat)
  (min_create_start_time : option Z) (i : nat) (vms : list VirtualMachine)
  (st : BootVars) : result BootVars :=
  match vms with
  | [] => Ok st
  | vm :: rest =>
      st' <- boot_step FLAGS num_vms min_create_start_time st i vm ;;
      boot_loop FLAGS num_vms min_create_start_time (S i) rest st'
  end.

Definition cluster_metadata (num_vms : nat) (st : BootVars) : Metadata :=
  [ ("num_vms"%string, MInt (Z.of_nat num_vms));
    ("os_type"%string, MStr (join "," (sorted (os_types st))));
    ("max_create_delay_sec"%string,
     MStr (format_0_1f (max_create_delay_sec st))) ].

(** The samples appended after the loop. *)
Definition cluster_samples (FLAGS : Flags) (num_vms : nat) (st : BootVars)
  : list Sample :=
  let metadata := cluster_metadata num_vms st in
  [Build_Sample "Cluster Boot Time" (max_boot_time_sec st) seconds metadata]
  ++ (if cluster_boot_test_port_listening FLAGS then
        [Build_Sample "Cluster Port Listening Time"
           (max_port_listening_time_sec st) seconds metadata]
      else [])
  ++ (if cluster_boot_test_rdp_port_listening FLAGS then
        [Build_Sample "Cluster RDP Port Listening Time"
           (max_rdp_port_listening_time_sec st) seconds metadata]
      else []).

(** The [logging.warning] of [GetTimeToBoot]. *)
Definition create_delay_warnings (st : BootVars) : list string :=
  if 1 <? max_create_delay_sec st then
    [ ("The maximum delay between starting VM creations is "
         ++ format_0_1f (max_create_delay_sec st) ++ "s.")%string ]
  else [].

(** [GetTimeToBoot(vms)] with the warnings it logs. *)
Definition GetTimeToBoot_logged (FLAGS : Flags) (vms : list VirtualMachine)
  : result (list Sample * list string) :=
  match vms with
  | [] => Ok ([], [])
  | _ :: _ =>
      reference <- min_create_start_time vms ;;
      st <- boot_loop FLAGS (length vms) reference 0 vms
              boot_vars_init ;;
      Ok (samples st ++ cluster_samples FLAGS (length vms) st,
          create_delay_warnings st)
  end.

Definition GetTimeToBoot (FLAGS : Flags) (vms : list VirtualMachine)
  : result (list Sample) :=
  r <- GetTimeToBoot_logged FLAGS vms ;;
  Ok (fst r).

(** ** [_MeasureReboot] and [MeasureDelete] *)

Definition operation_metadata (num_vms i : nat) (vm : VirtualMachine)
  : Metadata :=
  [ ("machine_instance"%string, MInt (Z.of_nat i));
    ("num_vms"%string, MInt (Z.of_nat num_vms));
    ("os_type"%string, MStr (OS_TYPE vm)) ].

(** [_GetVmOperationDataSamples(operation_times, cluster_time, operation,
    vms)]; [zip] stops at the shorter of its two lists. *)
Definition _GetVmOperationDataSamples (operation_times : list Z)
  (cluster_time : Z) (operation : string) (vms : list VirtualMachine)
  : list Sample :=
  let metadata_list := mapi (operation_metadata (length vms)) 0 vms in
  let samples :=
    map (fun tm : Z * Metadata =>
           Build_Sample (operation ++ " Time") (fst tm) seconds (snd tm))
      (combine operation_times metadata_list) in
  let os_types :=
    fold_left (fun s vm => set_add string_dec (OS_TYPE vm) s) vms
      (empty_set string) in
  let metadata :=
    [ ("num_vms"%string, MInt (Z.of_nat (length vms)));
      ("os_type"%string, MStr (join "," (sorted os_types))) ] in
  samples
  ++ [Build_Sample ("Cluster " ++ operation ++ " Time") cluster_time seconds
        metadata].

Section ConcurrentOperations.

(** The world outside the benchmark: the wall clock and the cloud. *)
Variable World : Type.

(** [time.time()]. *)
Variable time_time : World -> Z * World.

(** [background_tasks.RunThreaded(lambda vm: vm.Reboot(), vms)]: the
    durations the reboot tasks report, in the order of [vms], once every
    task has returned; or the exception of a task. *)
Variable RunThreaded_Reboot :
  list VirtualMachine -> World -> result (list Z) * World.

(** [background_tasks.RunThreaded(lambda vm: vm.Delete(), vms)]: the tasks
    set [delete_start_time] and [delete_end_time] on the machines; the
    result is the machines of [vms] as the tasks leave them. *)
Variable RunThreaded_Delete :
  list VirtualMachine -> World -> result (list VirtualMachine) * World.

(** Computations that read the clock, act on the cloud and may raise. *)
Definition Action (A : Type) : Type := World -> result A * World.

Definition act_bind {A B : Type} (c : Action A) (k : A -> Action B)
  : Action B :=
  fun w =>
    match c w with
    | (Ok a, w') => k a w'
    | (Raise e, w') => (Raise e, w')
    end.

Definition act_ret {A : Type} (a : A) : Action A := fun w => (Ok a, w).

Definition act_lift {A : Type} (r : result A) : Action A := fun w => (r, w).

Definition act_time : Action Z :=
  fun w => let (t, w') := time_time w in (Ok t, w').

Notation "x <~ c ;; k" := (act_bind c (fun x => k))
  (at level 61, c at next level, right associativity).

Definition _MeasureReboot (vms : list VirtualMachine)
  : Action (list Sample) :=
  before_reboot_timestamp <~ act_time ;;
  reboot_times <~ RunThreaded_Reboot vms ;;
  now_ <~ act_time ;;
  let cluster_reboot_time := now_ - before_reboot_timestamp in
  act_ret (_GetVmOperationDataSamples reboot_times cluster_reboot_time
             "Reboot" vms).

Definition MeasureDelete (vms : list VirtualMachine)
  : Action (list Sample) :=
  before_delete_timestamp <~ act_time ;;
  vms' <~ RunThreaded_Delete vms ;;
  delete_times <~
    act_lift (map_result
                (fun vm => py_sub (delete_end_time vm) (delete_start_time vm))
                vms') ;;
  max_delete_end_time <~ act_lift (py_max (map delete_end_time vms')) ;;
  cluster_delete_time <~
    act_lift (py_sub max_delete_end_time (Some before_delete_timestamp)) ;;
  act_ret (_GetVmOperationDataSamples delete_times cluster_delete_time
             "Delete" vms').

(** [Run(benchmark_spec)]. *)
Definition Run (FLAGS : Flags) (vms : list VirtualMachine)
  : Action (list Sample) :=
  if cluster_boot_time_reboot FLAGS then
    samples <~ _MeasureReboot vms ;;
    act_ret ([] ++ samples)
  else act_ret [].

End ConcurrentOperations.

(** * Vocabulary of the properties *)

(** ** Reading the returned samples *)

Definition lookup_meta (key : string) (md : Metadata) : option MetaValue :=
  option_map snd (find (fun kv => String.eqb (fst kv) key) md).

(** The samples of a given metric name, in order. *)
Definition samples_named (name : string) (l : list Sample) : list Sample :=
  filter (fun s => String.eqb (metric s) name) l.

(** ['machine_instance'] of a sample's metadata; the cluster-wide samples
    have none. *)
Definition machine_instance (s : Sample) : option Z :=
  match lookup_meta "machine_instance" (metadata s) with
  | Some (MInt k) => Some k
  | _ => None
  end.

Definition of_instance (i : nat) (s : Sample) : bool :=
  match machine_instance s with
  | Some k => k =? Z.of_nat i
  | None => false
  end.

(** The values of the samples named [name] that carry instance index [i]. *)
Definition instance_values (name : string) (i : nat) (l : list Sample)
  : list Z :=
  map value (filter (of_instance i) (samples_named name l)).

(** The values of the samples named [name]. *)
Definition values_named (name : string) (l : list Sample) : list Z :=
  map value (samples_named name l).

(** ** Timestamps and preconditions *)

(** The number held by a timestamp attribute. *)
Definition tval (t : option Z) : Z :=
  match t with
  | Some z => z
  | None => 0
  end.

Definition is_set (t : option Z) : Prop := t <> None.

(** A timestamp that is set and passes the truth test of the code. *)
Definition present (t : option Z) (z : Z) : Prop := t = Some z /\ z <> 0.

(** What the assertions of an iteration require of a machine. *)
Definition preconditions (FLAGS : Flags) (vm : VirtualMachine) : Prop :=
  exists c b : Z,
    present (create_start_time vm) c
    /\ present (bootable_time vm) b
    /\ c <= b
    /\ (cluster_boot_test_port_listening FLAGS = true ->
        exists p, present (port_listening_time vm) p /\ c <= p)
    /\ (cluster_boot_test_rdp_port_listening FLAGS = true ->
        exists p, present (rdp_port_listening_time vm) p /\ c <= p).

(** The assertions of one iteration. *)
Definition timestamp_ok (vm : VirtualMachine) (t : option Z) : bool :=
  truthy t && (tval (create_start_time vm) <=? tval t).

Definition vm_asserts (FLAGS : Flags) (vm : VirtualMachine) : bool :=
  truthy (create_start_time vm)
  && timestamp_ok vm (bootable_time vm)
  && (if cluster_boot_test_port_listening FLAGS
      then timestamp_ok vm (port_listening_time vm) else true)
  && (if cluster_boot_test_rdp_port_listening FLAGS
      then timestamp_ok vm (rdp_port_listening_time vm) else true).

(** A machine that fails an assertion of the loop. *)
Definition violates (FLAGS : Flags) (vm : VirtualMachine) : Prop :=
  truthy (create_start_time vm) = false
  \/ truthy (bootable_time vm) = false
  \/ tval (bootable_time vm) < tval (create_start_time vm)
  \/ (cluster_boot_test_port_listening FLAGS = true
      /\ (truthy (port_listening_time vm) = false
          \/ tval (port_listening_time vm) < tval (create_start_time vm)))
  \/ (cluster_boot_test_rdp_port_listening FLAGS = true
      /\ (truthy (rdp_port_listening_time vm) = false
          \/ tval (rdp_port_listening_time vm)
             < tval (create_start_time vm))).

(** ** Minima and maxima *)

Definition is_minimum (m : Z) (l : list Z) : Prop :=
  In m l /\ Forall (fun x => m <= x) l.

Definition is_maximum (M : Z) (l : list Z) : Prop :=
  In M l /\ Forall (fun x => x <= M) l.

(** The least of [z] and the numbers of [l]. *)
Definition min_of (z : Z) (l : list Z) : Z := fold_left Z.min l z.

(** The reference time of a list of machines whose [create_start_time]s
    are set. *)
Definition reference_time (vms : list VirtualMachine) : Z :=
  match vms with
  | [] => 0
  | vm :: rest =>
      min_of (tval (create_start_time vm))
        (map (fun v => tval (create_start_time v)) rest)
  end.

(** ** What the iterations compute when their assertions hold *)

(** The sample of an optional timestamp. *)
Definition optional_sample (name : string) (t : option Z) (origin : Z)
  (md : Metadata) : list Sample :=
  if truthy t then [Build_Sample name (tval t - origin) seconds md] else [].

Definition flagged_sample (flag : bool) (name : string) (t : option Z)
  (origin : Z) (md : Metadata) : list Sample :=
  if flag then [Build_Sample name (tval t - origin) seconds md] else [].

(** The samples iteration [i] appends, [m] being the reference time. *)
Definition instance_samples (FLAGS : Flags) (num_vms : nat) (m : Z)
  (i : nat) (vm : VirtualMachine) : list Sample :=
  let md :=
    instance_metadata i num_vms vm (tval (create_start_time vm) - m) in
  optional_sample "Time to Create Async Return" (create_return_time vm) m md
  ++ optional_sample "Time to Running" (is_running_time vm)
       (tval (create_start_time vm)) md
  ++ (if is_linux vm then
        optional_sample "Time to SSH - External" (ssh_external_time vm) m md
        ++ optional_sample "Time to SSH - Internal" (ssh_internal_time vm)
             m md
      else [])
  ++ [Build_Sample "Boot Time" (tval (bootable_time vm) - m) seconds md]
  ++ flagged_sample (cluster_boot_test_port_listening FLAGS)
       "Port Listening Time" (port_listening_time vm) m md
  ++ flagged_sample (cluster_boot_test_rdp_port_listening FLAGS)
       "RDP Port Listening Time" (rdp_port_listening_time vm) m md.

(** The loop variables after iteration [i]. *)
Definition boot_step_vars (FLAGS : Flags) (num_vms : nat) (m : Z)
  (st : BootVars) (i : nat) (vm : VirtualMachine) : BootVars :=
  {| samples := samples st ++ instance_samples FLAGS num_vms m i vm;
     os_types := set_add string_dec (OS_TYPE vm) (os_types st);
     max_create_delay_sec :=
       py_max2 (max_create_delay_sec st) (tval (create_start_time vm) - m);
     max_boot_time_sec :=
       py_max2 (max_boot_time_sec st) (tval (bootable_time vm) - m);
     max_port_listening_time_sec :=
       if cluster_boot_test_port_listening FLAGS
       then py_max2 (max_port_listening_time_sec st)
              (tval (port_listening_time vm) - m)
       else max_port_listening_time_sec st;
     max_rdp_port_listening_time_sec :=
       if cluster_boot_test_rdp_port_listening FLAGS
       then py_max2 (max_rdp_port_listening_time_sec st)
              (tval (rdp_port_listening_time vm) - m)
       else max_rdp_port_listening_time_sec st |}.

(** The block of samples of each machine, and their concatenation: what the
    iterations [i], [i+1], ... append. *)
Definition loop_blocks (FLAGS : Flags) (num_vms : nat) (m : Z) (i : nat)
  (vms : list VirtualMachine) : list (list Sample) :=
  mapi (instance_samples FLAGS num_vms m) i vms.

Definition loop_samples (FLAGS : Flags) (num_vms : nat) (m : Z) (i : nat)
  (vms : list VirtualMachine) : list Sample :=
  concat (loop_blocks FLAGS num_vms m i vms).

(** The loop variables after the iterations over [vms]. *)
Fixpoint loop_vars (FLAGS : Flags) (num_vms : nat) (m : Z) (i : nat)
  (vms : list VirtualMachine) (st : BootVars) : BootVars :=
  match vms with
  | [] => st
  | vm :: rest =>
      loop_vars FLAGS num_vms m (S i) rest
        (boot_step_vars FLAGS num_vms m st i vm)
  end.

(** The samples of a successful call on a non-empty list. *)
Definition boot_samples (FLAGS : Flags) (vms : list VirtualMachine)
  : list Sample :=
  let n := length vms in
  let m := reference_time vms in
  loop_samples FLAGS n m 0 vms
  ++ cluster_samples FLAGS n (loop_vars FLAGS n m 0 vms boot_vars_init).

(** The per-machine samples of [_GetVmOperationDataSamples], with the
    indices counted from [i]. *)
Definition operation_samples (name : string) (n i : nat) (times : list Z)
  (vms : list VirtualMachine) : list Sample :=
  map (fun tm : Z * Metadata =>
         Build_Sample name (fst tm) seconds (snd tm))
    (combine times (mapi (operation_metadata n) i vms)).

(** ** The order of the metrics *)

(** The metrics of one machine, in the order the loop appends them. *)
Definition metric_order : list string :=
  [ "Time to Create Async Return"; "Time to Running";
    "Time to SSH - External"; "Time to SSH - Internal"; "Boot Time";
    "Port Listening Time"; "RDP Port Listening Time" ]%string.

(** The cluster-wide metrics, in the order they are appended. *)
Definition cluster_metric_order : list string :=
  [ "Cluster Boot Time"; "Cluster Port Listening Time";
    "Cluster RDP Port Listening Time" ]%string.

(** [subsequence l1 l2]: [l1] is [l2] with some items left out. *)
Fixpoint subsequence (l1 l2 : list string) {struct l2} : bool :=
  match l2 with
  | [] => match l1 with [] => true | _ :: _ => false end
  | y :: l2' =>
      match l1 with
      | [] => true
      | x :: l1' =>
          if String.eqb x y then subsequence l1' l2' else subsequence l1 l2'
      end
  end.

(** ** Machines and scenarios used as examples *)

(** A virtual machine with only the timestamps every provider records. *)
Definition basic_vm (os : string) (create_start bootable : Z)
  : VirtualMachine :=
  {| OS_TYPE := os; is_linux := true;
     create_start_time := Some create_start;
     create_return_time := None; is_running_time := None;
     ssh_external_time := None; ssh_internal_time := None;
     bootable_time := Some bootable;
     port_listening_time := None; rdp_port_listening_time := None;
     delete_start_time := None; delete_end_time := None |}.

Definition no_flags : Flags :=
  {| cluster_boot_time_reboot := false;
     cluster_boot_test_port_listening := false;
     cluster_boot_test_rdp_port_listening := false |}.

Definition scenario_A : list VirtualMachine :=
  [ basic_vm "debian" 100 110; basic_vm "debian" 101 113;
    basic_vm "ubuntu" 103 115 ].

(** A machine reported running before its creation started. *)
Definition running_early_vm : VirtualMachine :=
  {| OS_TYPE := "debian"; is_linux := true;
     create_start_time := Some 5;
     create_return_time := None; is_running_time := Some 3;
     ssh_external_time := None; ssh_internal_time := None;
     bootable_time := Some 9;
     port_listening_time := None; rdp_port_listening_time := None;
     delete_start_time := None; delete_end_time := None |}.

Definition bootable_early_vm : VirtualMachine :=
  {| OS_TYPE := "debian"; is_linux := true;
     create_start_time := Some 5;
     create_return_time := None; is_running_time := None;
     ssh_external_time := None; ssh_internal_time := None;
     bootable_time := Some 4;
     port_listening_time := None; rdp_port_listening_time := None;
     delete_start_time := None; delete_end_time := None |}.

(** A machine whose provider reports when it is running. *)
Definition running_vm (create_start running bootable : Z) : VirtualMachine :=
  {| OS_TYPE := "debian"; is_linux := true;
     create_start_time := Some create_start;
     create_return_time := None; is_running_time := Some running;
     ssh_external_time := None; ssh_internal_time := None;
     bootable_time := Some bootable;
     port_listening_time := None; rdp_port_listening_time := None;
     delete_start_time := None; delete_end_time := None |}.

Definition staggered_vms : list VirtualMachine :=
  [running_vm 100 104 110; running_vm 103 107 115].

Definition port_flags : Flags :=
  {| cluster_boot_time_reboot := false;
     cluster_boot_test_port_listening := true;
     cluster_boot_test_rdp_port_listening := false |}.

(** A machine whose remote-command port was probed. *)
Definition port_vm (create_start bootable port : Z) : VirtualMachine :=
  {| OS_TYPE := "debian"; is_linux := true;
     create_start_time := Some create_start;
     create_return_time := None; is_running_time := None;
     ssh_external_time := None; ssh_internal_time := None;
     bootable_time := Some bootable;
     port_listening_time := Some port; rdp_port_listening_time := None;
     delete_start_time := None; delete_end_time := None |}.

Definition port_vms : list VirtualMachine :=
  [port_vm 100 110 112; port_vm 102 111 115].

(** A machine with every timestamp of an asynchronous create. *)
Definition full_vm : VirtualMachine :=
  {| OS_TYPE := "debian"; is_linux := true;
     create_start_time := Some 100;
     create_return_time := Some 101; is_running_time := Some 104;
     ssh_external_time := Some 109; ssh_internal_time := Some 108;
     bootable_time := Some 110;
     port_listening_time := Some 112; rdp_port_listening_time := None;
     delete_start_time := None; delete_end_time := None |}.

Definition mixed_vms : list VirtualMachine := [full_vm; port_vm 102 111 115].

(** A machine whose optional timestamps are all [0]. *)
Definition zero_optional_vm : VirtualMachine :=
  {| OS_TYPE := "debian"; is_linux := true;
     create_start_time := Some 100;
     create_return_time := Some 0; is_running_time := Some 0;
     ssh_external_time := Some 0; ssh_internal_time := Some 0;
     bootable_time := Some 110;
     port_listening_time := None; rdp_port_listening_time := None;
     delete_start_time := None; delete_end_time := None |}.

Definition two_vms : list VirtualMachine :=
  [basic_vm "debian" 100 110; basic_vm "ubuntu" 101 113].

(** A world that is just its clock. *)
Definition clock_time (w : Z) : Z * Z := (w, w).

(** Scenario B: two machines report reboots of 5 s and 7 s; the tasks have
    all returned 8 s after their start. *)
Definition scenario_B_reboot (vms : list VirtualMachine) (w : Z)
  : result (list Z) * Z :=
  (Ok [5; 7], w + 8).

(** Scenario C: deletions from 0 to 6 and from 1 to 9. *)
Definition set_delete_times (vm : VirtualMachine) (times : Z * Z)
  : VirtualMachine :=
  {| OS_TYPE := OS_TYPE vm; is_linux := is_linux vm;
     create_start_time := create_start_time vm;
     create_return_time := create_return_time vm;
     is_running_time := is_running_time vm;
     ssh_external_time := ssh_external_time vm;
     ssh_internal_time := ssh_internal_time vm;
     bootable_time := bootable_time vm;
     port_listening_time := port_listening_time vm;
     rdp_port_listening_time := rdp_port_listening_time vm;
     delete_start_time := Some (fst times);
     delete_end_time := Some (snd times) |}.

Definition scenario_C_delete (vms : list VirtualMachine) (w : Z)
  : result (list VirtualMachine) * Z :=
  (Ok (map (fun vt => set_delete_times (fst vt) (snd vt))
         (combine vms [(w, w + 6); (w + 1, w + 9)])),
   w + 9).

(** The machines of scenario C once deleted. *)
Definition deleted_vms : list VirtualMachine :=
  [ set_delete_times (basic_vm "debian" 100 110) (0, 6);
    set_delete_times (basic_vm "ubuntu" 101 113) (1, 9) ].

(** ** Vocabulary and examples of the further properties *)

(** The integers Python converts to a double. *)
Definition fits_double (z : Z) : Prop := Z.abs z < 2 ^ 1024 - 2 ^ 970.

(** The order of [sorted] on strings. *)
Definition string_le (a b : string) : Prop := String.leb a b = true.

(** [os_types] after adding the [OS_TYPE] of each machine. *)
Definition add_os_types (vms : list VirtualMachine) (s : set string)
  : set string :=
  fold_left (fun s vm => set_add string_dec (OS_TYPE vm) s) vms s.

(** The number of samples one iteration appends. *)
Definition emitted (FLAGS : Flags) (vm : VirtualMachine) : nat :=
  (if truthy (create_return_time vm) then 1 else 0)
  + (if truthy (is_running_time vm) then 1 else 0)
  + (if is_linux vm then
       (if truthy (ssh_external_time vm) then 1 else 0)
       + (if truthy (ssh_internal_time vm) then 1 else 0)
     else 0)
  + 1
  + (if cluster_boot_test_port_listening FLAGS then 1 else 0)
  + (if cluster_boot_test_rdp_port_listening FLAGS then 1 else 0).

(** The number of cluster-wide samples. *)
Definition cluster_emitted (FLAGS : Flags) : nat :=
  1
  + (if cluster_boot_test_port_listening FLAGS then 1 else 0)
  + (if cluster_boot_test_rdp_port_listening FLAGS then 1 else 0).

Definition rdp_flags : Flags :=
  {| cluster_boot_time_reboot := false;
     cluster_boot_test_port_listening := false;
     cluster_boot_test_rdp_port_listening := true |}.

(** A machine that is not a [BaseLinuxMixin], with its RDP port probed; its
    SSH timestamps are set all the same. *)
Definition windows_vm (create_start bootable rdp : Z) : VirtualMachine :=
  {| OS_TYPE := "windows2019"; is_linux := false;
     create_start_time := Some create_start;
     create_return_time := None; is_running_time := None;
     ssh_external_time := Some (create_start + 1);
     ssh_internal_time := Some (create_start + 2);
     bootable_time := Some bootable;
     port_listening_time := None; rdp_port_listening_time := Some rdp;
     delete_start_time := None; delete_end_time := None |}.

Definition windows_vms : list VirtualMachine :=
  [windows_vm 100 120 125; windows_vm 101 119 130].

(** A machine whose [create_start_time] was never set. *)
Definition unset_vm : VirtualMachine :=
  {| OS_TYPE := "debian"; is_linux := true;
     create_start_time := None;
     create_return_time := None; is_running_time := None;
     ssh_external_time := None; ssh_internal_time := None;
     bootable_time := Some 9;
     port_listening_time := None; rdp_port_listening_time := None;
     delete_start_time := None; delete_end_time := None |}.

(** Delete tasks of which one raises, delete tasks on no machine, and
    delete tasks that return without setting the timestamps. *)
Definition failing_delete (vms : list VirtualMachine) (w : Z)
  : result (list VirtualMachine) * Z :=
  (Raise ValueError, w + 3).

Definition delete_none (vms : list VirtualMachine) (w : Z)
  : result (list VirtualMachine) * Z :=
  (Ok [], w).

Definition delete_untimed (vms : list VirtualMachine) (w : Z)
  : result (list VirtualMachine) * Z :=
  (Ok vms, w + 3).

(** * Lemmas on the program *)

(** ** One iteration *)

Lemma truthy_tval (t : option Z) : truthy t = true -> t = Some (tval t).
Proof. destruct t; simpl; [reflexivity | discriminate]. Qed.

Lemma optional_block (name : string) (t : option Z) (origin : Z)
  (md : Metadata) (l : list Sample) :
  (if truthy t then
     x <- py_sub t (Some origin) ;;
     Ok (l ++ [Build_Sample name x seconds md])
   else Ok l)
  = Ok (l ++ optional_sample name t origin md).
Proof.
  unfold optional_sample.
  destruct (truthy t) eqn:Ht.
  - rewrite (truthy_tval t Ht). reflexivity.
  - now rewrite app_nil_r.
Qed.

Lemma asserted_block (flag : bool) (name : string) (vm : VirtualMachine)
  (t : option Z) (m acc : Z) (md : Metadata) (l : list Sample) :
  (if flag then
     py_assert (truthy t) ;;;
     ordered <- py_ge t (Some (tval (create_start_time vm))) ;;
     py_assert ordered ;;;
     x <- py_sub t (Some m) ;;
     Ok (py_max2 acc x, l ++ [Build_Sample name x seconds md])
   else Ok (acc, l))
  = if (if flag then timestamp_ok vm t else true)
    then Ok (if flag then py_max2 acc (tval t - m) else acc,
             l ++ flagged_sample flag name t m md)
    else Raise AssertionError.
Proof.
  unfold flagged_sample, timestamp_ok.
  destruct flag; [|now rewrite app_nil_r].
  destruct (truthy t) eqn:Ht; [|reflexivity].
  rewrite (truthy_tval t Ht). simpl.
  destruct (tval (create_start_time vm) <=? tval t); reflexivity.
Qed.

Lemma ssh_block (linux : bool) (ext int : option Z) (m : Z) (md : Metadata)
  (l : list Sample) :
  (if linux then
     samples3 <-
       (if truthy ext then
          t <- py_sub ext (Some m) ;;
          Ok (l ++ [Build_Sample "Time to SSH - External" t seconds md])
        else Ok l) ;;
     (if truthy int then
        t <- py_sub int (Some m) ;;
        Ok (samples3 ++ [Build_Sample "Time to SSH - Internal" t seconds md])
      else Ok samples3)
   else Ok l)
  = Ok (l ++ (if linux then
                optional_sample "Time to SSH - External" ext m md
                ++ optional_sample "Time to SSH - Internal" int m md
              else [])).
Proof.
  destruct linux; [|now rewrite app_nil_r].
  rewrite optional_block. cbn [bind]. rewrite optional_block.
  now rewrite <- app_assoc.
Qed.

(** An iteration either fails an assertion or appends
    [instance_samples]. *)
Lemma boot_step_spec (FLAGS : Flags) (num_vms : nat) (m : Z) (st : BootVars)
  (i : nat) (vm : VirtualMachine) :
  boot_step FLAGS num_vms (Some m) st i vm
  = if vm_asserts FLAGS vm
    then Ok (boot_step_vars FLAGS num_vms m st i vm)
    else Raise AssertionError.
Proof.
  unfold boot_step, vm_asserts, create_delay_sec.
  destruct (truthy (create_start_time vm)) eqn:Hc; [|reflexivity].
  unfold timestamp_ok at 1.
  destruct (truthy (bootable_time vm)) eqn:Hb; [|reflexivity].
  cbn [py_assert bind andb].
  rewrite (truthy_tval _ Hc), (truthy_tval _ Hb).
  cbn [py_ge py_sub bind tval].
  destruct (tval (create_start_time vm) <=? tval (bootable_time vm));
    [|reflexivity].
  cbn [py_assert bind andb].
  rewrite optional_block. cbn [bind].  rewrite optional_block. cbn [bind].
  set (md := instance_metadata i num_vms vm _).
  rewrite ssh_block. cbn [bind].
  rewrite asserted_block.
  destruct (if cluster_boot_test_port_listening FLAGS
            then timestamp_ok vm (port_listening_time vm) else true);
    [|reflexivity].
  cbn [bind snd fst andb].
  rewrite asserted_block.
  destruct (if cluster_boot_test_rdp_port_listening FLAGS
            then timestamp_ok vm (rdp_port_listening_time vm) else true);
    [|reflexivity].
  cbn [bind snd fst].
  unfold boot_step_vars, instance_samples. fold md.
  now rewrite <- !app_assoc.
Qed.

(** When the reference time is [None] the first assertion fails: [min]
    returns [None] only for a single machine without
    [create_start_time]. *)
Lemma boot_step_unset (FLAGS : Flags) (num_vms : nat) (mn : option Z)
  (st : BootVars) (i : nat) (vm : VirtualMachine) :
  truthy (create_start_time vm) = false ->
  boot_step FLAGS num_vms mn st i vm = Raise AssertionError.
Proof. intros H. unfold boot_step. now rewrite H. Qed.

(** ** The loop *)

Lemma boot_loop_spec (FLAGS : Flags) (num_vms : nat) (m : Z)
  (vms : list VirtualMachine) :
  forall (i : nat) (st : BootVars),
    boot_loop FLAGS num_vms (Some m) i vms st
    = if forallb (vm_asserts FLAGS) vms
      then Ok (loop_vars FLAGS num_vms m i vms st)
      else Raise AssertionError.
Proof.
  induction vms as [|vm rest IH]; intros i st; simpl; [reflexivity|].
  rewrite boot_step_spec.
  destruct (vm_asserts FLAGS vm); simpl; [apply IH | reflexivity].
Qed.

Lemma loop_vars_samples (FLAGS : Flags) (num_vms : nat) (m : Z)
  (vms : list VirtualMachine) :
  forall (i : nat) (st : BootVars),
    samples (loop_vars FLAGS num_vms m i vms st)
    = samples st ++ loop_samples FLAGS num_vms m i vms.
Proof.
  unfold loop_samples, loop_blocks.
  induction vms as [|vm rest IH]; intros i st; simpl.
  - now rewrite app_nil_r.
  - rewrite IH. simpl. now rewrite app_assoc.
Qed.

Lemma py_max2_max (a b : Z) : py_max2 a b = Z.max a b.
Proof. unfold py_max2. destruct (Z.ltb_spec a b); lia. Qed.

(** The running maximum of the boot times. *)
Lemma loop_vars_max_boot (FLAGS : Flags) (num_vms : nat) (m : Z)
  (vms : list VirtualMachine) :
  forall (i : nat) (st : BootVars),
    max_boot_time_sec (loop_vars FLAGS num_vms m i vms st)
    = fold_left Z.max (map (fun vm => tval (bootable_time vm) - m) vms)
        (max_boot_time_sec st).
Proof.
  induction vms as [|vm rest IH]; intros i st; simpl; [reflexivity|].
  rewrite IH. simpl. now rewrite py_max2_max.
Qed.

(** ** The reference time *)

Lemma py_min_from_set (l : list Z) :
  forall z : Z, py_min_from (Some z) (map Some l) = Ok (Some (min_of z l)).
Proof.
  induction l as [|x l IH]; intros z; simpl; [reflexivity|].
  unfold min_of. simpl.
  destruct (Z.ltb_spec x z).
  - rewrite IH. unfold min_of. now rewrite Z.min_r by lia.
  - rewrite IH. unfold min_of. now rewrite Z.min_l by lia.
Qed.

Lemma min_of_le (l : list Z) :
  forall z : Z, min_of z l <= z /\ Forall (fun x => min_of z l <= x) l.
Proof.
  unfold min_of.
  induction l as [|x l IH]; intros z; simpl; [split; [lia | constructor]|].
  destruct (IH (Z.min z x)) as [H1 H2]. split; [lia|].
  constructor; [lia | exact H2].
Qed.

Lemma min_of_in (l : list Z) :
  forall z : Z, min_of z l = z \/ In (min_of z l) l.
Proof.
  unfold min_of.
  induction l as [|x l IH]; intros z; simpl; [now left|].
  destruct (IH (Z.min z x)) as [H | H]; [|now right; right].
  rewrite H. destruct (Z.min_spec z x) as [[_ E] | [_ E]]; rewrite E; auto.
Qed.

(** Comparing with a missing [create_start_time] raises [TypeError]. *)
Lemma py_min_from_unset (l : list (option Z)) :
  forall cur : option Z,
    l <> [] ->
    cur = None \/ In None l ->
    py_min_from cur l = Raise TypeError.
Proof.
  induction l as [|x l IH]; intros cur Hne H; [congruence|].
  simpl. destruct x as [x|]; [|reflexivity].
  destruct cur as [c|]; [|reflexivity].
  simpl. destruct H as [H | [H | H]]; try discriminate.
  apply IH.
  - intros ->. destruct H.
  - now right.
Qed.

(** [min] over the [create_start_time]s never raises anything other than
    [TypeError] on a non-empty list, and returns a number unless the list
    is a single [None]. *)
Lemma py_min_cases (l : list (option Z)) :
  l <> [] ->
  (exists x zs, l = map Some (x :: zs) /\ py_min l = Ok (Some (min_of x zs)))
  \/ (l = [None] /\ py_min l = Ok None)
  \/ (In None l /\ py_min l = Raise TypeError).
Proof.
  intros Hne.
  assert (Hdec : (exists zs, l = map Some zs) \/ In None l).
  { clear Hne. induction l as [|x l IH].
    - left. now exists [].
    - destruct x as [x|]; [|right; now left].
      destruct IH as [[zs ->] | H]; [left; now exists (x :: zs) | right].
      now right. }
  destruct Hdec as [[zs ->] | Hin].
  - left. destruct zs as [|x zs]; [now elim Hne|].
    exists x, zs. split; [reflexivity|]. apply py_min_from_set.
  - right. destruct l as [|x l]; [destruct Hin|].
    destruct l as [|y l].
    + left. destruct Hin as [-> | []]. now split.
    + right. split; [exact Hin|]. unfold py_min.
      apply py_min_from_unset; [discriminate|].
      destruct Hin as [-> | H]; [now left | now right].
Qed.

(** ** [GetTimeToBoot] as a whole *)

Lemma truthy_is_set (t : option Z) : truthy t = true -> is_set t.
Proof. destruct t; [discriminate | discriminate]. Qed.

Lemma set_create_start_times (vms : list VirtualMachine) :
  Forall (fun vm => is_set (create_start_time vm)) vms ->
  map create_start_time vms
  = map Some (map (fun v => tval (create_start_time v)) vms).
Proof.
  induction 1 as [|vm rest Hvm _ IH]; simpl; [reflexivity|].
  rewrite IH. destruct (create_start_time vm); [reflexivity | now elim Hvm].
Qed.

Lemma min_create_start_time_set (vms : list VirtualMachine) :
  vms <> [] ->
  Forall (fun vm => is_set (create_start_time vm)) vms ->
  min_create_start_time vms = Ok (Some (reference_time vms)).
Proof.
  intros Hne Hset. unfold min_create_start_time.
  rewrite (set_create_start_times vms Hset).
  destruct vms as [|vm rest]; [congruence|].
  simpl. apply py_min_from_set.
Qed.

Lemma vm_asserts_create_start (FLAGS : Flags) (vm : VirtualMachine) :
  vm_asserts FLAGS vm = true -> truthy (create_start_time vm) = true.
Proof.
  unfold vm_asserts. intros H.
  destruct (truthy (create_start_time vm)); [reflexivity | discriminate].
Qed.

Lemma asserts_set (FLAGS : Flags) (vms : list VirtualMachine) :
  forallb (vm_asserts FLAGS) vms = true ->
  Forall (fun vm => is_set (create_start_time vm)) vms.
Proof.
  rewrite forallb_forall, Forall_forall. intros H vm Hin.
  apply truthy_is_set, (vm_asserts_create_start FLAGS), H, Hin.
Qed.

(** With every [create_start_time] set, the call returns [boot_samples]
    or fails an assertion. *)
Lemma GetTimeToBoot_set (FLAGS : Flags) (vms : list VirtualMachine) :
  vms <> [] ->
  Forall (fun vm => is_set (create_start_time vm)) vms ->
  GetTimeToBoot FLAGS vms
  = if forallb (vm_asserts FLAGS) vms
    then Ok (boot_samples FLAGS vms)
    else Raise AssertionError.
Proof.
  intros Hne Hset. unfold GetTimeToBoot, GetTimeToBoot_logged.
  destruct vms as [|vm rest] eqn:E; [congruence|]. rewrite <- E in *.
  rewrite (min_create_start_time_set vms Hne Hset). cbn [bind].
  rewrite boot_loop_spec.
  destruct (forallb (vm_asserts FLAGS) vms); [|reflexivity].
  cbn [bind fst]. unfold boot_samples.
  now rewrite loop_vars_samples.
Qed.

Lemma GetTimeToBoot_ok (FLAGS : Flags) (vms : list VirtualMachine) :
  vms <> [] ->
  forallb (vm_asserts FLAGS) vms = true ->
  GetTimeToBoot FLAGS vms = Ok (boot_samples FLAGS vms).
Proof.
  intros Hne H.
  rewrite (GetTimeToBoot_set FLAGS vms Hne (asserts_set FLAGS vms H)).
  now rewrite H.
Qed.

(** A failing assertion on any machine makes the whole call raise. *)
Lemma GetTimeToBoot_raises (FLAGS : Flags) (vms : list VirtualMachine) :
  forallb (vm_asserts FLAGS) vms = false ->
  exists e, GetTimeToBoot FLAGS vms = Raise e
            /\ (e = AssertionError \/ e = TypeError).
Proof.
  intros H.
  assert (Hne : vms <> []) by (intros ->; discriminate).
  assert (Hne' : map create_start_time vms <> []).
  { destruct vms; [congruence | discriminate]. }
  destruct (py_min_cases _ Hne') as [(x & zs & E & _) | [[E Hm] | [_ Hm]]].
  - assert (Hset : Forall (fun vm => is_set (create_start_time vm)) vms).
    { apply Forall_forall. intros vm Hin.
      apply (in_map create_start_time) in Hin. rewrite E in Hin.
      apply in_map_iff in Hin. destruct Hin as (z & <- & _). discriminate. }
    exists AssertionError. split; [|now left].
    rewrite (GetTimeToBoot_set FLAGS vms Hne Hset). now rewrite H.
  - exists AssertionError. split; [|now left].
    destruct vms as [|vm [|vm' rest]]; try discriminate.
    unfold GetTimeToBoot, GetTimeToBoot_logged, min_create_start_time.
    rewrite Hm. cbn [bind boot_loop].
    rewrite boot_step_unset; [reflexivity|].
    injection E as E. now rewrite E.
  - exists TypeError. split; [|now right].
    unfold GetTimeToBoot, GetTimeToBoot_logged, min_create_start_time.
    destruct vms as [|vm rest]; [congruence|]. now rewrite Hm.
Qed.

(** A call that returns has passed every assertion. *)
Lemma GetTimeToBoot_returns (FLAGS : Flags) (vms : list VirtualMachine)
  (l : list Sample) :
  GetTimeToBoot FLAGS vms = Ok l ->
  forallb (vm_asserts FLAGS) vms = true
  /\ (vms = [] -> l = [])
  /\ (vms <> [] -> l = boot_samples FLAGS vms).
Proof.
  intros H.
  destruct (forallb (vm_asserts FLAGS) vms) eqn:Ha.
  - split; [reflexivity|]. split.
    + intros ->. now inversion H.
    + intros Hne. rewrite (GetTimeToBoot_ok FLAGS vms Hne Ha) in H.
      now inversion H.
  - destruct (GetTimeToBoot_raises FLAGS vms Ha) as (e & He & _).
    congruence.
Qed.

(** ** Selecting samples by metric name and by machine *)

Lemma mapi_length {A B : Type} (f : nat -> A -> B) (l : list A) :
  forall i : nat, length (mapi f i l) = length l.
Proof. induction l as [|a l IH]; intros i; simpl; [|rewrite IH]; auto. Qed.

Lemma map_mapi {A B C : Type} (g : B -> C) (f : nat -> A -> B)
  (l : list A) :
  forall i : nat, map g (mapi f i l) = mapi (fun j a => g (f j a)) i l.
Proof.
  induction l as [|a l IH]; intros i; simpl; [|rewrite IH]; reflexivity.
Qed.

Lemma nth_error_mapi {A B : Type} (f : nat -> A -> B) (l : list A) :
  forall i k : nat,
    nth_error (mapi f i l) k = option_map (f (i + k)%nat) (nth_error l k).
Proof.
  induction l as [|a l IH]; intros i [|k]; simpl; try reflexivity.
  - now rewrite Nat.add_0_r.
  - rewrite IH. now rewrite Nat.add_succ_r.
Qed.

Lemma samples_named_app (name : string) (l1 l2 : list Sample) :
  samples_named name (l1 ++ l2)
  = samples_named name l1 ++ samples_named name l2.
Proof. apply filter_app. Qed.

Lemma samples_named_optional (name name' : string) (t : option Z) (o : Z)
  (md : Metadata) :
  samples_named name (optional_sample name' t o md)
  = if String.eqb name' name then optional_sample name' t o md else [].
Proof.
  unfold optional_sample, samples_named.
  destruct (truthy t); simpl; destruct (String.eqb name' name); reflexivity.
Qed.

Lemma samples_named_flagged (name name' : string) (flag : bool)
  (t : option Z) (o : Z) (md : Metadata) :
  samples_named name (flagged_sample flag name' t o md)
  = if String.eqb name' name then flagged_sample flag name' t o md else [].
Proof.
  unfold flagged_sample, samples_named.
  destruct flag; simpl; destruct (String.eqb name' name); reflexivity.
Qed.

(** The samples of one machine that carry a given name. *)
Lemma samples_named_instance (name : string) (FLAGS : Flags) (n : nat)
  (m : Z) (i : nat) (vm : VirtualMachine) :
  samples_named name (instance_samples FLAGS n m i vm)
  = let md := instance_metadata i n vm (tval (create_start_time vm) - m) in
    (if String.eqb "Time to Create Async Return" name
     then optional_sample "Time to Create Async Return"
            (create_return_time vm) m md else [])
    ++ (if String.eqb "Time to Running" name
        then optional_sample "Time to Running" (is_running_time vm)
               (tval (create_start_time vm)) md else [])
    ++ (if is_linux vm then
          (if String.eqb "Time to SSH - External" name
           then optional_sample "Time to SSH - External"
                  (ssh_external_time vm) m md else [])
          ++ (if String.eqb "Time to SSH - Internal" name
              then optional_sample "Time to SSH - Internal"
                     (ssh_internal_time vm) m md else [])
        else [])
    ++ (if String.eqb "Boot Time" name
        then [Build_Sample "Boot Time" (tval (bootable_time vm) - m)
                seconds md] else [])
    ++ (if String.eqb "Port Listening Time" name
        then flagged_sample (cluster_boot_test_port_listening FLAGS)
               "Port Listening Time" (port_listening_time vm) m md else [])
    ++ (if String.eqb "RDP Port Listening Time" name
        then flagged_sample (cluster_boot_test_rdp_port_listening FLAGS)
               "RDP Port Listening Time" (rdp_port_listening_time vm) m md
        else []).
Proof.
  unfold instance_samples. cbv zeta.
  rewrite !samples_named_app, !samples_named_optional,
    !samples_named_flagged.
  destruct (is_linux vm);
    [rewrite !samples_named_app, !samples_named_optional|]; reflexivity.
Qed.

(** Every sample of machine [i] carries the index [i]. *)
Lemma instance_samples_index (FLAGS : Flags) (n : nat) (m : Z) (i : nat)
  (vm : VirtualMachine) :
  Forall (fun s => machine_instance s = Some (Z.of_nat i))
    (instance_samples FLAGS n m i vm).
Proof.
  unfold instance_samples, optional_sample, flagged_sample.
  repeat (apply Forall_app; split);
    repeat match goal with
      | |- context [if ?b then _ else _] => destruct b
      end;
    repeat (apply Forall_app; split);
    repeat constructor.
Qed.

Lemma filter_all {A : Type} (p : A -> bool) (l : list A) :
  Forall (fun a => p a = true) l -> filter p l = l.
Proof. induction 1 as [|a l Ha _ IH]; simpl; [|rewrite Ha, IH]; auto. Qed.

Lemma filter_none {A : Type} (p : A -> bool) (l : list A) :
  Forall (fun a => p a = false) l -> filter p l = [].
Proof. induction 1 as [|a l Ha _ IH]; simpl; [|rewrite Ha, IH]; auto. Qed.

Lemma of_instance_block (FLAGS : Flags) (n : nat) (m : Z) (i k : nat)
  (vm : VirtualMachine) :
  filter (of_instance k) (instance_samples FLAGS n m i vm)
  = if (i =? k)%nat then instance_samples FLAGS n m i vm else [].
Proof.
  pose proof (instance_samples_index FLAGS n m i vm) as H.
  destruct (Nat.eqb_spec i k) as [-> | Hne].
  - apply filter_all. eapply Forall_impl; [|exact H].
    intros s Hs. unfold of_instance. rewrite Hs. apply Z.eqb_refl.
  - apply filter_none. eapply Forall_impl; [|exact H].
    intros s Hs. unfold of_instance. rewrite Hs. apply Z.eqb_neq. lia.
Qed.

(** The samples of the loop that carry the index [k] are the block of the
    machine at position [k]. *)
Lemma of_instance_loop (FLAGS : Flags) (n : nat) (m : Z)
  (vms : list VirtualMachine) :
  forall i k : nat,
    filter (of_instance (i + k)) (loop_samples FLAGS n m i vms)
    = match nth_error vms k with
      | Some vm => instance_samples FLAGS n m (i + k) vm
      | None => []
      end.
Proof.
  unfold loop_samples, loop_blocks.
  assert (Hlow : forall (l : list VirtualMachine) (i k : nat),
             (k < i)%nat ->
             filter (of_instance k)
               (concat (mapi (instance_samples FLAGS n m) i l)) = []).
  { induction l as [|vm rest IH]; intros i k Hk; simpl; [reflexivity|].
    rewrite filter_app, of_instance_block, IH by lia.
    destruct (Nat.eqb_spec i k); [lia | reflexivity]. }
  induction vms as [|vm rest IH]; intros i k; simpl.
  - now destruct k.
  - rewrite filter_app, of_instance_block.
    destruct k as [|k]; simpl.
    + rewrite Nat.add_0_r, Nat.eqb_refl, Hlow by lia. apply app_nil_r.
    + destruct (Nat.eqb_spec i (i + S k)); [lia|].
      rewrite Nat.add_succ_r. apply (IH (S i) k).
Qed.

Lemma cluster_samples_no_index (FLAGS : Flags) (n : nat) (st : BootVars)
  (k : nat) :
  filter (of_instance k) (cluster_samples FLAGS n st) = [].
Proof.
  unfold cluster_samples.
  destruct (cluster_boot_test_port_listening FLAGS),
    (cluster_boot_test_rdp_port_listening FLAGS); reflexivity.
Qed.

Lemma of_instance_boot_samples (FLAGS : Flags) (vms : list VirtualMachine)
  (k : nat) :
  filter (of_instance k) (boot_samples FLAGS vms)
  = match nth_error vms k with
    | Some vm =>
        instance_samples FLAGS (length vms) (reference_time vms) k vm
    | None => []
    end.
Proof.
  unfold boot_samples. cbv zeta.
  rewrite filter_app, cluster_samples_no_index, app_nil_r.
  apply (of_instance_loop FLAGS _ _ vms 0 k).
Qed.

Lemma filter_comm {A : Type} (p q : A -> bool) (l : list A) :
  filter p (filter q l) = filter q (filter p l).
Proof.
  induction l as [|a l IH]; simpl; [reflexivity|].
  destruct (p a) eqn:Hp, (q a) eqn:Hq; simpl; rewrite ?Hp, ?Hq, IH;
    reflexivity.
Qed.

Lemma of_instance_named (name : string) (i : nat) (l : list Sample) :
  filter (of_instance i) (samples_named name l)
  = samples_named name (filter (of_instance i) l).
Proof. apply filter_comm. Qed.

(** The values named [name] of the machine at position [k]. *)
Lemma instance_values_boot_samples (name : string) (FLAGS : Flags)
  (vms : list VirtualMachine) (k : nat) (vm : VirtualMachine) :
  nth_error vms k = Some vm ->
  instance_values name k (boot_samples FLAGS vms)
  = map value
      (samples_named name
         (instance_samples FLAGS (length vms) (reference_time vms) k vm)).
Proof.
  intros H. unfold instance_values.
  now rewrite of_instance_named, of_instance_boot_samples, H.
Qed.

Lemma samples_named_loop (name : string) (FLAGS : Flags) (n : nat) (m : Z)
  (vms : list VirtualMachine) (i : nat) :
  samples_named name (loop_samples FLAGS n m i vms)
  = concat (mapi (fun j vm =>
                    samples_named name (instance_samples FLAGS n m j vm))
              i vms).
Proof.
  unfold loop_samples, loop_blocks, samples_named.
  now rewrite <- concat_filter_map, map_mapi.
Qed.

Lemma concat_mapi_nil {A B : Type} (f : nat -> A -> list B) (l : list A) :
  (forall j a, f j a = []) -> forall i : nat, concat (mapi f i l) = [].
Proof.
  intros Hf. induction l as [|a l IH]; intros i; simpl; [reflexivity|].
  now rewrite Hf, IH.
Qed.

Lemma concat_mapi_single {A B : Type} (f : nat -> A -> list B)
  (g : nat -> A -> B) (l : list A) :
  (forall j a, f j a = [g j a]) ->
  forall i : nat, concat (mapi f i l) = mapi g i l.
Proof.
  intros Hf. induction l as [|a l IH]; intros i; simpl; [reflexivity|].
  now rewrite Hf, IH.
Qed.

(** Evaluates the name tests of [samples_named_instance]. *)
Ltac by_name :=
  rewrite samples_named_instance; cbv zeta; simpl;
  try match goal with
    | |- context [is_linux ?vm] => destruct (is_linux vm)
    end;
  simpl; rewrite ?app_nil_r; try reflexivity.

(** The "Boot Time" sample of one machine. *)
Lemma boot_time_of_instance (FLAGS : Flags) (n : nat) (m : Z) (i : nat)
  (vm : VirtualMachine) :
  samples_named "Boot Time" (instance_samples FLAGS n m i vm)
  = [Build_Sample "Boot Time" (tval (bootable_time vm) - m) seconds
       (instance_metadata i n vm (tval (create_start_time vm) - m))].
Proof. by_name. Qed.

Lemma no_cluster_boot_time_in_instance (FLAGS : Flags) (n : nat) (m : Z)
  (i : nat) (vm : VirtualMachine) :
  samples_named "Cluster Boot Time" (instance_samples FLAGS n m i vm) = [].
Proof. by_name. Qed.

Lemma cluster_boot_time_sample (FLAGS : Flags) (n : nat) (st : BootVars) :
  samples_named "Cluster Boot Time" (cluster_samples FLAGS n st)
  = [Build_Sample "Cluster Boot Time" (max_boot_time_sec st) seconds
       (cluster_metadata n st)].
Proof.
  unfold cluster_samples.
  destruct (cluster_boot_test_port_listening FLAGS),
    (cluster_boot_test_rdp_port_listening FLAGS); reflexivity.
Qed.

Lemma no_boot_time_in_cluster (FLAGS : Flags) (n : nat) (st : BootVars) :
  samples_named "Boot Time" (cluster_samples FLAGS n st) = [].
Proof.
  unfold cluster_samples.
  destruct (cluster_boot_test_port_listening FLAGS),
    (cluster_boot_test_rdp_port_listening FLAGS); reflexivity.
Qed.

(** ** The preconditions *)

Lemma truthy_present (t : option Z) :
  truthy t = true <-> present t (tval t).
Proof.
  unfold present. destruct t as [z|]; simpl.
  - destruct (Z.eqb_spec z 0); simpl; split; intros H; try discriminate;
      try (split; [reflexivity | assumption]); try reflexivity.
    destruct H as [_ H]. contradiction.
  - split; [discriminate | intros [H _]; discriminate].
Qed.

Lemma present_tval (t : option Z) (z : Z) : present t z -> tval t = z.
Proof. intros [-> _]. reflexivity. Qed.

Lemma timestamp_ok_present (vm : VirtualMachine) (t : option Z) :
  timestamp_ok vm t = true
  <-> present t (tval t) /\ tval (create_start_time vm) <= tval t.
Proof.
  unfold timestamp_ok. rewrite andb_true_iff, truthy_present, Z.leb_le.
  reflexivity.
Qed.

Lemma preconditions_asserts (FLAGS : Flags) (vm : VirtualMachine) :
  preconditions FLAGS vm <-> vm_asserts FLAGS vm = true.
Proof.
  unfold preconditions, vm_asserts.
  rewrite !andb_true_iff, truthy_present, timestamp_ok_present. split.
  - intros (c & b & Hc & Hb & Hcb & Hp & Hr).
    rewrite (present_tval _ _ Hc), (present_tval _ _ Hb).
    repeat split; try assumption; try (apply Hc); try (apply Hb).
    + destruct (cluster_boot_test_port_listening FLAGS); [|reflexivity].
      destruct (Hp eq_refl) as (p & Hp1 & Hp2).
      apply timestamp_ok_present.
      rewrite (present_tval _ _ Hc), (present_tval _ _ Hp1). now split.
    + destruct (cluster_boot_test_rdp_port_listening FLAGS); [|reflexivity].
      destruct (Hr eq_refl) as (p & Hp1 & Hp2).
      apply timestamp_ok_present.
      rewrite (present_tval _ _ Hc), (present_tval _ _ Hp1). now split.
  - intros [[[Hc [Hb Hcb]] Hp] Hr].
    exists (tval (create_start_time vm)), (tval (bootable_time vm)).
    repeat split; try assumption; try (apply Hc); try (apply Hb).
    + intros E. rewrite E in Hp. apply timestamp_ok_present in Hp.
      exists (tval (port_listening_time vm)). exact Hp.
    + intros E. rewrite E in Hr. apply timestamp_ok_present in Hr.
      exists (tval (rdp_port_listening_time vm)). exact Hr.
Qed.

Lemma preconditions_forallb (FLAGS : Flags) (vms : list VirtualMachine) :
  Forall (preconditions FLAGS) vms
  <-> forallb (vm_asserts FLAGS) vms = true.
Proof.
  rewrite forallb_forall, Forall_forall.
  split; intros H vm Hin; apply preconditions_asserts, H, Hin.
Qed.

(** The call returns exactly when every machine meets the
    preconditions. *)
Lemma GetTimeToBoot_total (FLAGS : Flags) (vms : list VirtualMachine) :
  vms <> [] ->
  Forall (preconditions FLAGS) vms ->
  GetTimeToBoot FLAGS vms = Ok (boot_samples FLAGS vms).
Proof.
  intros Hne H. apply GetTimeToBoot_ok; [exact Hne|].
  now apply preconditions_forallb.
Qed.

(** ** Minima and maxima *)

Lemma reference_time_minimum (vms : list VirtualMachine) :
  vms <> [] ->
  is_minimum (reference_time vms)
    (map (fun vm => tval (create_start_time vm)) vms).
Proof.
  destruct vms as [|vm rest]; [congruence|]. intros _.
  unfold is_minimum, reference_time.
  set (z := tval (create_start_time vm)).
  set (l := map (fun v => tval (create_start_time v)) rest).
  destruct (min_of_le l z) as [H1 H2]. split.
  - simpl. fold z l. destruct (min_of_in l z) as [H | H]; auto.
  - simpl. fold z l. constructor; assumption.
Qed.

Lemma fold_max_bounds (l : list Z) :
  forall a : Z,
    a <= fold_left Z.max l a
    /\ Forall (fun x => x <= fold_left Z.max l a) l
    /\ (fold_left Z.max l a = a \/ In (fold_left Z.max l a) l).
Proof.
  induction l as [|x l IH]; intros a; simpl.
  - repeat split; [lia | constructor | now left].
  - destruct (IH (Z.max a x)) as (H1 & H2 & H3).
    repeat split; [lia | constructor; [lia | exact H2] |].
    destruct H3 as [H3 | H3]; [|now right; right].
    rewrite H3. destruct (Z.max_spec a x) as [[_ E] | [_ E]]; rewrite E;
      auto.
Qed.

(** Starting the running maximum at [0] does not show when no item is
    negative. *)
Lemma fold_max_from_zero (l : list Z) :
  l <> [] ->
  Forall (fun x => 0 <= x) l ->
  is_maximum (fold_left Z.max l 0) l.
Proof.
  intros Hne Hpos. destruct (fold_max_bounds l 0) as (H1 & H2 & H3).
  split; [|exact H2].
  destruct H3 as [H3 | H3]; [|exact H3].
  destruct l as [|x l]; [congruence|].
  inversion Hpos as [|? ? Hx _]; subst. inversion H2 as [|? ? Hx' _]; subst.
  rewrite H3 in *. left. lia.
Qed.

Lemma values_named_cluster_boot_time (FLAGS : Flags)
  (vms : list VirtualMachine) :
  values_named "Cluster Boot Time" (boot_samples FLAGS vms)
  = [fold_left Z.max
       (map (fun vm => tval (bootable_time vm) - reference_time vms) vms) 0].
Proof.
  unfold values_named, boot_samples. cbv zeta.
  rewrite samples_named_app, samples_named_loop, cluster_boot_time_sample.
  rewrite concat_mapi_nil
    by (intros; apply no_cluster_boot_time_in_instance).
  simpl. now rewrite loop_vars_max_boot.
Qed.

Lemma samples_named_boot_time (FLAGS : Flags) (vms : list VirtualMachine) :
  samples_named "Boot Time" (boot_samples FLAGS vms)
  = mapi (fun i vm =>
            Build_Sample "Boot Time"
              (tval (bootable_time vm) - reference_time vms) seconds
              (instance_metadata i (length vms) vm
                 (tval (create_start_time vm) - reference_time vms)))
      0 vms.
Proof.
  unfold boot_samples. cbv zeta.
  rewrite samples_named_app, samples_named_loop, no_boot_time_in_cluster.
  rewrite app_nil_r. apply concat_mapi_single.
  intros; apply boot_time_of_instance.
Qed.

(** * Properties of [GetTimeToBoot] *)

(** ** The number of samples and the cluster boot time *)

(** C3.  On a non-empty list whose machines meet the preconditions,
    [GetTimeToBoot] returns exactly one "Boot Time" sample for each machine
    and exactly one "Cluster Boot Time" sample; on the empty list it
    returns the empty list of samples. *)
Theorem one_boot_time_per_instance (FLAGS : Flags)
  (vms : list VirtualMachine) :
  GetTimeToBoot FLAGS [] = Ok []
  /\ (vms <> [] ->
      Forall (preconditions FLAGS) vms ->
      exists l : list Sample,
        GetTimeToBoot FLAGS vms = Ok l
        /\ (forall i : nat,
              (i < length vms)%nat ->
              length (filter (of_instance i) (samples_named "Boot Time" l))
              = 1%nat)
        /\ length (samples_named "Boot Time" l) = length vms
        /\ length (samples_named "Cluster Boot Time" l) = 1%nat).
Proof.
  split; [reflexivity|]. intros Hne Hpre.
  exists (boot_samples FLAGS vms).
  split; [now apply GetTimeToBoot_total|]. split; [|split].
  - intros i Hi.
    destruct (nth_error vms i) as [vm|] eqn:E;
      [|apply nth_error_None in E; lia].
    rewrite of_instance_named, of_instance_boot_samples, E.
    now rewrite boot_time_of_instance.
  - rewrite samples_named_boot_time. apply mapi_length.
  - pose proof (values_named_cluster_boot_time FLAGS vms) as H.
    unfold values_named in H.
    apply (f_equal (@length Z)) in H. now rewrite length_map in H.
Qed.

(** C1.  On a non-empty list whose machines have [create_start_time] and
    [bootable_time] set, the latter not before the former, the samples
    [GetTimeToBoot] returns hold a single "Cluster Boot Time", and its value
    is the greatest of the differences between a machine's [bootable_time]
    and the least [create_start_time]; no rounding takes place.  The call
    raises only when an assertion of the loop fails. *)
Theorem cluster_boot_time_is_max (FLAGS : Flags)
  (vms : list VirtualMachine) :
  vms <> [] ->
  Forall (fun vm => exists c b : Z,
              create_start_time vm = Some c
              /\ bootable_time vm = Some b /\ c <= b) vms ->
  match GetTimeToBoot FLAGS vms with
  | Ok l =>
      exists M : Z,
        is_minimum (reference_time vms)
          (map (fun vm => tval (create_start_time vm)) vms)
        /\ is_maximum M
             (map (fun vm => tval (bootable_time vm) - reference_time vms)
                vms)
        /\ values_named "Cluster Boot Time" l = [M]
  | Raise e => e = AssertionError /\ ~ Forall (preconditions FLAGS) vms
  end.
Proof.
  intros Hne Hset.
  assert (Hcst : Forall (fun vm => is_set (create_start_time vm)) vms).
  { eapply Forall_impl; [|exact Hset].
    intros vm (c & b & Hc & _). unfold is_set. congruence. }
  rewrite (GetTimeToBoot_set FLAGS vms Hne Hcst).
  destruct (forallb (vm_asserts FLAGS) vms) eqn:Ha.
  - pose proof (reference_time_minimum vms Hne) as Hmin.
    eexists. split; [exact Hmin|]. split;
      [|apply values_named_cluster_boot_time].
    apply fold_max_from_zero.
    + destruct vms; [congruence | discriminate].
    + apply Forall_map. rewrite Forall_forall in *. intros vm Hin.
      destruct (Hset vm Hin) as (c & b & Hc & Hb & Hcb).
      destruct Hmin as [_ Hmin]. rewrite Forall_map, Forall_forall in Hmin.
      specialize (Hmin vm Hin). cbv beta in Hmin.
      rewrite Hc, Hb in *. simpl in *. lia.
  - split; [reflexivity|]. rewrite preconditions_forallb. congruence.
Qed.

Lemma scenario_A_preconditions : Forall (preconditions no_flags) scenario_A.
Proof. apply preconditions_forallb. reflexivity. Qed.

Lemma one_boot_time_per_instance_witness :
  scenario_A <> []
  /\ Forall (preconditions no_flags) scenario_A
  /\ exists l : list Sample,
       GetTimeToBoot no_flags scenario_A = Ok l
       /\ (forall i : nat,
             (i < length scenario_A)%nat ->
             length (filter (of_instance i) (samples_named "Boot Time" l))
             = 1%nat)
       /\ length (samples_named "Boot Time" l) = length scenario_A
       /\ length (samples_named "Cluster Boot Time" l) = 1%nat.
Proof.
  split; [discriminate|]. split; [exact scenario_A_preconditions|].
  apply (proj2 (one_boot_time_per_instance no_flags scenario_A));
    [discriminate | exact scenario_A_preconditions].
Defined.

Lemma scenario_A_set :
  Forall (fun vm => exists c b : Z,
              create_start_time vm = Some c
              /\ bootable_time vm = Some b /\ c <= b) scenario_A.
Proof.
  repeat constructor; simpl; do 2 eexists;
    (split; [reflexivity | split; [reflexivity | lia]]).
Qed.

Lemma cluster_boot_time_is_max_witness :
  scenario_A <> []
  /\ Forall (fun vm => exists c b : Z,
                create_start_time vm = Some c
                /\ bootable_time vm = Some b /\ c <= b) scenario_A
  /\ match GetTimeToBoot no_flags scenario_A with
     | Ok l =>
         exists M : Z,
           is_minimum (reference_time scenario_A)
             (map (fun vm => tval (create_start_time vm)) scenario_A)
           /\ is_maximum M
                (map (fun vm =>
                        tval (bootable_time vm) - reference_time scenario_A)
                   scenario_A)
           /\ values_named "Cluster Boot Time" l = [M]
     | Raise e =>
         e = AssertionError /\ ~ Forall (preconditions no_flags) scenario_A
     end.
Proof.
  split; [discriminate|]. split; [exact scenario_A_set|].
  apply (cluster_boot_time_is_max no_flags scenario_A);
    [discriminate | exact scenario_A_set].
Defined.

(** Scenario A: machines created at 100, 101 and 103 and bootable at 110,
    113 and 115. *)
Example scenario_A_values :
  exists l : list Sample,
    GetTimeToBoot no_flags scenario_A = Ok l
    /\ values_named "Boot Time" l = [10; 13; 15]
    /\ values_named "Cluster Boot Time" l = [15]
    /\ map (fun s => lookup_meta "create_delay_sec" (metadata s))
         (samples_named "Boot Time" l)
       = [Some (MStr "0.0"); Some (MStr "1.0"); Some (MStr "3.0")].
Proof. eexists. split; [reflexivity|]. repeat split. Qed.

Example scenario_A_warning :
  option_map snd
    (match GetTimeToBoot_logged no_flags scenario_A with
     | Ok r => Some r
     | Raise _ => None
     end)
  = Some ["The maximum delay between starting VM creations is 3.0s."%string].
Proof. reflexivity. Qed.

(** ** Which violations abort the call *)

Lemma timestamp_ok_false (vm : VirtualMachine) (t : option Z) :
  timestamp_ok vm t = false
  <-> truthy t = false \/ tval t < tval (create_start_time vm).
Proof.
  unfold timestamp_ok. rewrite andb_false_iff, Z.leb_gt. reflexivity.
Qed.

Lemma violates_asserts (FLAGS : Flags) (vm : VirtualMachine) :
  violates FLAGS vm <-> vm_asserts FLAGS vm = false.
Proof.
  unfold violates, vm_asserts.
  rewrite !andb_false_iff, timestamp_ok_false.
  destruct (cluster_boot_test_port_listening FLAGS),
    (cluster_boot_test_rdp_port_listening FLAGS);
    rewrite ?timestamp_ok_false; intuition discriminate.
Qed.

Lemma GetTimeToBoot_violation (FLAGS : Flags) (vms : list VirtualMachine) :
  Exists (violates FLAGS) vms ->
  exists e, GetTimeToBoot FLAGS vms = Raise e
            /\ (e = AssertionError \/ e = TypeError).
Proof.
  intros H. apply GetTimeToBoot_raises.
  apply Exists_exists in H. destruct H as (vm & Hin & Hv).
  apply violates_asserts in Hv.
  destruct (forallb (vm_asserts FLAGS) vms) eqn:E; [|reflexivity].
  rewrite forallb_forall in E. rewrite (E vm Hin) in Hv. discriminate.
Qed.

Example running_early_samples :
  exists l : list Sample,
    GetTimeToBoot no_flags [running_early_vm] = Ok l
    /\ values_named "Time to Running" l = [-2]
    /\ values_named "Boot Time" l = [4].
Proof. eexists. split; [reflexivity|]. split; reflexivity. Qed.

(** The order of the optional timestamps relative to [create_start_time] is
    not asserted: a machine whose [is_running_time] precedes its
    [create_start_time] does not abort the call. *)
Lemma optional_timestamp_order_unchecked :
  ~ (forall (FLAGS : Flags) (vms : list VirtualMachine),
        (exists (vm : VirtualMachine) (c t : Z),
            In vm vms
            /\ create_start_time vm = Some c
            /\ In (Some t)
                 [create_return_time vm; is_running_time vm;
                  ssh_internal_time vm; ssh_external_time vm]
            /\ t < c) ->
        exists e : PyError, GetTimeToBoot FLAGS vms = Raise e).
Proof.
  intros H.
  destruct (H no_flags [running_early_vm]) as [e He].
  - exists running_early_vm, 5, 3. simpl. repeat split; auto; lia.
  - discriminate He.
Qed.

(** C2, amended.  If any machine fails an assertion of the loop -- its
    [create_start_time] or [bootable_time] is missing or zero, its
    [bootable_time] is before its [create_start_time], or, with a listening
    flag enabled, the timestamp of that flag is missing, zero or before its
    [create_start_time] -- the call raises and returns no samples.  A call
    that returns has skipped no machine: each has its "Boot Time"
    sample. *)
Theorem violation_aborts (FLAGS : Flags) (vms : list VirtualMachine) :
  (Exists (violates FLAGS) vms ->
   exists e : PyError, GetTimeToBoot FLAGS vms = Raise e)
  /\ (forall l : list Sample,
        GetTimeToBoot FLAGS vms = Ok l ->
        forall (i : nat) (vm : VirtualMachine),
          nth_error vms i = Some vm ->
          instance_values "Boot Time" i l
          = [tval (bootable_time vm) - reference_time vms]).
Proof.
  split.
  - intros H. destruct (GetTimeToBoot_violation FLAGS vms H) as (e & He & _).
    now exists e.
  - intros l Hl i vm Hi.
    destruct (GetTimeToBoot_returns FLAGS vms l Hl) as (_ & _ & Hs).
    rewrite Hs by (intros ->; now destruct i).
    rewrite (instance_values_boot_samples _ _ _ _ _ Hi).
    now rewrite boot_time_of_instance.
Qed.

Lemma violation_aborts_witness :
  Exists (violates no_flags) [basic_vm "debian" 1 2; bootable_early_vm]
  /\ (exists e : PyError,
        GetTimeToBoot no_flags [basic_vm "debian" 1 2; bootable_early_vm]
        = Raise e)
  /\ GetTimeToBoot no_flags scenario_A
     = Ok (boot_samples no_flags scenario_A)
  /\ nth_error scenario_A 1 = Some (basic_vm "debian" 101 113)
  /\ instance_values "Boot Time" 1 (boot_samples no_flags scenario_A)
     = [tval (bootable_time (basic_vm "debian" 101 113))
        - reference_time scenario_A].
Proof.
  assert (Hv : Exists (violates no_flags)
                 [basic_vm "debian" 1 2; bootable_early_vm]).
  { apply Exists_cons_tl, Exists_cons_hd.
    right; right; left. simpl. lia. }
  split; [exact Hv|]. split.
  - exact (proj1 (violation_aborts no_flags _) Hv).
  - split; [reflexivity|]. split; [reflexivity|].
    exact (proj2 (violation_aborts no_flags scenario_A) _ eq_refl 1%nat
             _ eq_refl).
Defined.

(** ** Time to Running *)

(** C4.  "Time to Running" is measured from the machine's own
    [create_start_time]: two machines with the same difference between
    [is_running_time] and [create_start_time] get the same
    "Time to Running", whatever their [create_start_time]s. *)
Theorem time_to_running_instance_relative (FLAGS : Flags)
  (vms : list VirtualMachine) (i j : nat) (vmi vmj : VirtualMachine)
  (ci ri cj rj : Z) :
  Forall (preconditions FLAGS) vms ->
  nth_error vms i = Some vmi ->
  nth_error vms j = Some vmj ->
  create_start_time vmi = Some ci ->
  create_start_time vmj = Some cj ->
  present (is_running_time vmi) ri ->
  present (is_running_time vmj) rj ->
  ri - ci = rj - cj ->
  exists l : list Sample,
    GetTimeToBoot FLAGS vms = Ok l
    /\ instance_values "Time to Running" i l = [ri - ci]
    /\ instance_values "Time to Running" j l = [ri - ci].
Proof.
  intros Hpre Hi Hj Hci Hcj [Hri Hri0] [Hrj Hrj0] Heq.
  exists (boot_samples FLAGS vms). split.
  - apply GetTimeToBoot_total; [|exact Hpre]. intros ->. now destruct i.
  - rewrite (instance_values_boot_samples _ _ _ _ _ Hi),
      (instance_values_boot_samples _ _ _ _ _ Hj).
    split; by_name; unfold optional_sample.
    + rewrite Hri, Hci. simpl.
      destruct (Z.eqb_spec ri 0); [contradiction | reflexivity].
    + rewrite Hri, Hci. simpl.
      destruct (Z.eqb_spec ri 0); [contradiction | reflexivity].
    + rewrite Hrj, Hcj, Heq. simpl.
      destruct (Z.eqb_spec rj 0); [contradiction | reflexivity].
    + rewrite Hrj, Hcj, Heq. simpl.
      destruct (Z.eqb_spec rj 0); [contradiction | reflexivity].
Qed.

Lemma time_to_running_instance_relative_witness :
  Forall (preconditions no_flags) staggered_vms
  /\ nth_error staggered_vms 0 = Some (running_vm 100 104 110)
  /\ nth_error staggered_vms 1 = Some (running_vm 103 107 115)
  /\ present (is_running_time (running_vm 100 104 110)) 104
  /\ present (is_running_time (running_vm 103 107 115)) 107
  /\ 104 - 100 = 107 - 103
  /\ exists l : list Sample,
       GetTimeToBoot no_flags staggered_vms = Ok l
       /\ instance_values "Time to Running" 0 l = [104 - 100]
       /\ instance_values "Time to Running" 1 l = [104 - 100].
Proof.
  assert (Hpre : Forall (preconditions no_flags) staggered_vms)
    by (apply preconditions_forallb; reflexivity).
  assert (H104 : present (is_running_time (running_vm 100 104 110)) 104)
    by (split; [reflexivity | lia]).
  assert (H107 : present (is_running_time (running_vm 103 107 115)) 107)
    by (split; [reflexivity | lia]).
  repeat (split; [first [exact Hpre | exact H104 | exact H107
                        | reflexivity]|]).
  exact (time_to_running_instance_relative no_flags staggered_vms 0 1
           (running_vm 100 104 110) (running_vm 103 107 115)
           100 104 103 107 Hpre eq_refl eq_refl eq_refl eq_refl H104 H107
           eq_refl).
Defined.

(** ** Port Listening Time *)

Lemma port_listening_of_instance (FLAGS : Flags) (n : nat) (m : Z) (i : nat)
  (vm : VirtualMachine) :
  samples_named "Port Listening Time" (instance_samples FLAGS n m i vm)
  = flagged_sample (cluster_boot_test_port_listening FLAGS)
      "Port Listening Time" (port_listening_time vm) m
      (instance_metadata i n vm (tval (create_start_time vm) - m)).
Proof. by_name. Qed.

Lemma no_port_listening_in_cluster (FLAGS : Flags) (n : nat)
  (st : BootVars) :
  samples_named "Port Listening Time" (cluster_samples FLAGS n st) = [].
Proof.
  unfold cluster_samples.
  destruct (cluster_boot_test_port_listening FLAGS),
    (cluster_boot_test_rdp_port_listening FLAGS); reflexivity.
Qed.

(** C5.  With the port-listening flag enabled, a call on machines that meet
    the preconditions returns, for each machine, a "Port Listening Time"
    sample whose value is [port_listening_time] minus the reference time;
    if some machine has no [port_listening_time], or one before its
    [create_start_time], the call raises and returns no samples.  With the
    flag disabled no "Port Listening Time" sample is returned. *)
Theorem port_listening_time_gated (FLAGS : Flags)
  (vms : list VirtualMachine) :
  (cluster_boot_test_port_listening FLAGS = true ->
   (vms <> [] ->
    Forall (preconditions FLAGS) vms ->
    exists l : list Sample,
      GetTimeToBoot FLAGS vms = Ok l
      /\ forall (i : nat) (vm : VirtualMachine) (p : Z),
           nth_error vms i = Some vm ->
           port_listening_time vm = Some p ->
           instance_values "Port Listening Time" i l
           = [p - reference_time vms])
   /\ ((exists vm : VirtualMachine,
          In vm vms
          /\ (port_listening_time vm = None
              \/ exists p c : Z,
                   port_listening_time vm = Some p
                   /\ create_start_time vm = Some c /\ p < c)) ->
       exists e : PyError, GetTimeToBoot FLAGS vms = Raise e))
  /\ (cluster_boot_test_port_listening FLAGS = false ->
      forall l : list Sample,
        GetTimeToBoot FLAGS vms = Ok l ->
        samples_named "Port Listening Time" l = []).
Proof.
  split.
  - intros Hflag. split.
    + intros Hne Hpre. exists (boot_samples FLAGS vms).
      split; [now apply GetTimeToBoot_total|].
      intros i vm p Hi Hp.
      rewrite (instance_values_boot_samples _ _ _ _ _ Hi).
      rewrite port_listening_of_instance, Hflag, Hp. reflexivity.
    + intros (vm & Hin & Hbad).
      destruct (GetTimeToBoot_violation FLAGS vms) as (e & He & _);
        [|now exists e].
      apply Exists_exists. exists vm. split; [exact Hin|].
      right; right; right; left. split; [exact Hflag|].
      destruct Hbad as [-> | (p & c & -> & -> & Hpc)];
        [now left | now right].
  - intros Hflag l Hl.
    destruct (GetTimeToBoot_returns FLAGS vms l Hl) as (_ & He & Hs).
    destruct vms as [|vm rest]; [now rewrite He|].
    rewrite Hs by discriminate. unfold boot_samples. cbv zeta.
    rewrite samples_named_app, samples_named_loop,
      no_port_listening_in_cluster, app_nil_r.
    apply concat_mapi_nil. intros j a.
    now rewrite port_listening_of_instance, Hflag.
Qed.

Lemma port_listening_time_gated_witness :
  (cluster_boot_test_port_listening port_flags = true
   /\ port_vms <> []
   /\ Forall (preconditions port_flags) port_vms
   /\ exists l : list Sample,
        GetTimeToBoot port_flags port_vms = Ok l
        /\ forall (i : nat) (vm : VirtualMachine) (p : Z),
             nth_error port_vms i = Some vm ->
             port_listening_time vm = Some p ->
             instance_values "Port Listening Time" i l
             = [p - reference_time port_vms])
  /\ ((exists vm : VirtualMachine,
         In vm scenario_A
         /\ (port_listening_time vm = None
             \/ exists p c : Z,
                  port_listening_time vm = Some p
                  /\ create_start_time vm = Some c /\ p < c))
      /\ exists e : PyError, GetTimeToBoot port_flags scenario_A = Raise e)
  /\ (cluster_boot_test_port_listening no_flags = false
      /\ GetTimeToBoot no_flags port_vms = Ok (boot_samples no_flags port_vms)
      /\ samples_named "Port Listening Time" (boot_samples no_flags port_vms)
         = []).
Proof.
  assert (Hpre : Forall (preconditions port_flags) port_vms)
    by (apply preconditions_forallb; reflexivity).
  assert (Hne : port_vms <> []) by discriminate.
  assert (Hbad : exists vm : VirtualMachine,
             In vm scenario_A
             /\ (port_listening_time vm = None
                 \/ exists p c : Z,
                      port_listening_time vm = Some p
                      /\ create_start_time vm = Some c /\ p < c)).
  { exists (basic_vm "debian" 100 110). split; [now left | now left]. }
  split; [|split].
  - split; [reflexivity|]. split; [exact Hne|]. split; [exact Hpre|].
    exact (proj1 (proj1 (port_listening_time_gated port_flags port_vms)
                    eq_refl) Hne Hpre).
  - split; [exact Hbad|].
    exact (proj2 (proj1 (port_listening_time_gated port_flags scenario_A)
                    eq_refl) Hbad).
  - split; [reflexivity|]. split; [reflexivity|].
    exact (proj2 (port_listening_time_gated no_flags port_vms) eq_refl
             _ eq_refl).
Defined.

Example port_listening_values :
  exists l : list Sample,
    GetTimeToBoot port_flags port_vms = Ok l
    /\ values_named "Port Listening Time" l = [12; 15]
    /\ values_named "Cluster Port Listening Time" l = [15].
Proof. eexists. split; [reflexivity|]. split; reflexivity. Qed.

(** ** Formatting *)

(** Below [2^53] the conversion to a double is exact. *)
Lemma float_of_int_exact (z : Z) :
  Z.abs z < 2 ^ 53 -> float_of_int z = z.
Proof.
  intros H. unfold float_of_int.
  destruct (Z.ltb_spec (Z.abs z) (2 ^ 53)); [reflexivity | lia].
Qed.

Example format_rounds_to_double :
  format_0_1f 3 = "3.0"%string
  /\ format_0_1f 9007199254740993 = "9007199254740992.0"%string
  /\ format_0_1f 9007199254740995 = "9007199254740996.0"%string
  /\ format_0_1f (10 ^ 23) = "99999999999999991611392.0"%string.
Proof. repeat split; reflexivity. Qed.

(** ** The reference time and the create delays *)

Lemma instance_samples_metadata (FLAGS : Flags) (n : nat) (m : Z) (i : nat)
  (vm : VirtualMachine) :
  Forall (fun s =>
            metadata s
            = instance_metadata i n vm (tval (create_start_time vm) - m))
    (instance_samples FLAGS n m i vm).
Proof.
  unfold instance_samples, optional_sample, flagged_sample.
  repeat (apply Forall_app; split);
    repeat match goal with
      | |- context [if ?b then _ else _] => destruct b
      end;
    repeat (apply Forall_app; split);
    repeat constructor.
Qed.





Example scenario_A_reference_time :
  min_create_start_time scenario_A = Ok (Some 100)
  /\ map (fun vm => create_delay_sec vm (Some 100)) scenario_A
     = [Ok 0; Ok 1; Ok 3].
Proof. split; reflexivity. Qed.

(** ** The order of the samples *)

Example subsequence_keeps_order :
  subsequence ["Time to Running"; "Boot Time"]%string metric_order = true
  /\ subsequence ["Boot Time"; "Time to Running"]%string metric_order
     = false.
Proof. split; reflexivity. Qed.





Example mixed_vms_metrics :
  exists l : list Sample,
    GetTimeToBoot port_flags mixed_vms = Ok l
    /\ map (fun s => (machine_instance s, metric s)) l
       = [ (Some 0, "Time to Create Async Return");
           (Some 0, "Time to Running");
           (Some 0, "Time to SSH - External");
           (Some 0, "Time to SSH - Internal");
           (Some 0, "Boot Time");
           (Some 0, "Port Listening Time");
           (Some 1, "Boot Time");
           (Some 1, "Port Listening Time");
           (None, "Cluster Boot Time");
           (None, "Cluster Port Listening Time") ]%string.
Proof. eexists. split; reflexivity. Qed.

(** ** Truth tests on timestamps *)

(** C10.  Timestamps are tested for truth, not for being set.  An optional
    timestamp equal to [0] yields no sample, and the call goes on; a
    [create_start_time] or [bootable_time] equal to [0] makes the call
    raise, by the assertion when every [create_start_time] is set. *)
Theorem zero_timestamp_is_falsy (FLAGS : Flags) (vms : list VirtualMachine) :
  (vms <> [] ->
   Forall (preconditions FLAGS) vms ->
   exists l : list Sample,
     GetTimeToBoot FLAGS vms = Ok l
     /\ forall (i : nat) (vm : VirtualMachine),
          nth_error vms i = Some vm ->
          (create_return_time vm = Some 0 ->
           instance_values "Time to Create Async Return" i l = [])
          /\ (is_running_time vm = Some 0 ->
              instance_values "Time to Running" i l = [])
          /\ (ssh_external_time vm = Some 0 ->
              instance_values "Time to SSH - External" i l = [])
          /\ (ssh_internal_time vm = Some 0 ->
              instance_values "Time to SSH - Internal" i l = []))
  /\ ((exists vm : VirtualMachine,
         In vm vms
         /\ (create_start_time vm = Some 0 \/ bootable_time vm = Some 0)) ->
      exists e : PyError,
        GetTimeToBoot FLAGS vms = Raise e
        /\ (Forall (fun vm => is_set (create_start_time vm)) vms ->
            e = AssertionError)).
Proof.
  split.
  - intros Hne Hpre. exists (boot_samples FLAGS vms).
    split; [now apply GetTimeToBoot_total|].
    intros i vm Hi.
    rewrite !(instance_values_boot_samples _ _ _ _ _ Hi).
    repeat split; intros H0; by_name; unfold optional_sample;
      rewrite H0; reflexivity.
  - intros (vm & Hin & Hzero).
    assert (Ha : forallb (vm_asserts FLAGS) vms = false).
    { destruct (forallb (vm_asserts FLAGS) vms) eqn:E; [|reflexivity].
      rewrite forallb_forall in E. rewrite <- (E vm Hin).
      apply violates_asserts.
      destruct Hzero as [H | H]; [left | right; left]; now rewrite H. }
    destruct (GetTimeToBoot_raises FLAGS vms Ha) as (e & He & _).
    exists e. split; [exact He|]. intros Hset.
    assert (Hne : vms <> []) by (intros ->; destruct Hin).
    rewrite (GetTimeToBoot_set FLAGS vms Hne Hset), Ha in He. congruence.
Qed.

Lemma zero_timestamp_is_falsy_witness :
  ([zero_optional_vm] <> []
   /\ Forall (preconditions no_flags) [zero_optional_vm]
   /\ exists l : list Sample,
        GetTimeToBoot no_flags [zero_optional_vm] = Ok l
        /\ forall (i : nat) (vm : VirtualMachine),
             nth_error [zero_optional_vm] i = Some vm ->
             (create_return_time vm = Some 0 ->
              instance_values "Time to Create Async Return" i l = [])
             /\ (is_running_time vm = Some 0 ->
                 instance_values "Time to Running" i l = [])
             /\ (ssh_external_time vm = Some 0 ->
                 instance_values "Time to SSH - External" i l = [])
             /\ (ssh_internal_time vm = Some 0 ->
                 instance_values "Time to SSH - Internal" i l = []))
  /\ ((exists vm : VirtualMachine,
         In vm [basic_vm "debian" 0 5]
         /\ (create_start_time vm = Some 0 \/ bootable_time vm = Some 0))
      /\ exists e : PyError,
           GetTimeToBoot no_flags [basic_vm "debian" 0 5] = Raise e
           /\ (Forall (fun vm => is_set (create_start_time vm))
                 [basic_vm "debian" 0 5] ->
               e = AssertionError)).
Proof.
  assert (Hpre : Forall (preconditions no_flags) [zero_optional_vm])
    by (apply preconditions_forallb; reflexivity).
  assert (Hne : [zero_optional_vm] <> []) by discriminate.
  assert (Hzero : exists vm : VirtualMachine,
             In vm [basic_vm "debian" 0 5]
             /\ (create_start_time vm = Some 0
                 \/ bootable_time vm = Some 0)).
  { exists (basic_vm "debian" 0 5). split; [now left | now left]. }
  split.
  - split; [exact Hne|]. split; [exact Hpre|].
    exact (proj1 (zero_timestamp_is_falsy no_flags [zero_optional_vm])
             Hne Hpre).
  - split; [exact Hzero|].
    exact (proj2 (zero_timestamp_is_falsy no_flags [basic_vm "debian" 0 5])
             Hzero).
Defined.

Example zero_optional_samples :
  exists l : list Sample,
    GetTimeToBoot no_flags [zero_optional_vm] = Ok l
    /\ map metric l = ["Boot Time"; "Cluster Boot Time"]%string.
Proof. eexists. split; reflexivity. Qed.

Example zero_create_start_raises :
  GetTimeToBoot no_flags [basic_vm "debian" 0 5] = Raise AssertionError.
Proof. reflexivity. Qed.

Example zero_bootable_raises :
  GetTimeToBoot no_flags [basic_vm "debian" 5 0] = Raise AssertionError.
Proof. reflexivity. Qed.

(** * Properties of [_MeasureReboot] and [MeasureDelete] *)

Lemma operation_samples_values (name : string) (n : nat)
  (vms : list VirtualMachine) :
  forall (i : nat) (times : list Z),
    length times = length vms ->
    map value (operation_samples name n i times vms) = times.
Proof.
  unfold operation_samples.
  induction vms as [|vm rest IH]; intros i [|t times] H; simpl in *;
    try reflexivity; try discriminate.
  f_equal. apply IH. lia.
Qed.

Lemma operation_samples_named (name name' : string) (n : nat)
  (vms : list VirtualMachine) :
  forall (i : nat) (times : list Z),
    samples_named name' (operation_samples name n i times vms)
    = if String.eqb name name' then operation_samples name n i times vms
      else [].
Proof.
  unfold operation_samples, samples_named.
  induction vms as [|vm rest IH]; intros i [|t times]; simpl;
    try (destruct (String.eqb name name'); reflexivity).
  rewrite IH. destruct (String.eqb name name'); reflexivity.
Qed.

Lemma operation_samples_low (name : string) (n : nat)
  (vms : list VirtualMachine) :
  forall (i k : nat) (times : list Z),
    (k < i)%nat ->
    filter (of_instance k) (operation_samples name n i times vms) = [].
Proof.
  unfold operation_samples.
  induction vms as [|vm rest IH]; intros i k [|t times] Hk; simpl;
    try reflexivity.
  unfold of_instance at 1. simpl.
  destruct (Z.eqb_spec (Z.of_nat i) (Z.of_nat k)); [lia|].
  apply IH. lia.
Qed.

Lemma operation_samples_of_instance (name : string) (n : nat)
  (vms : list VirtualMachine) :
  forall (i k : nat) (times : list Z),
    length times = length vms ->
    map value
      (filter (of_instance (i + k)) (operation_samples name n i times vms))
    = match nth_error times k with
      | Some t => [t]
      | None => []
      end.
Proof.
  induction vms as [|vm rest IH]; intros i k [|t times] H; simpl in *;
    try discriminate.
  - now destruct k.
  - unfold operation_samples. simpl.
    fold (operation_samples name n (S i) times rest).
    unfold of_instance at 1. simpl. destruct k as [|k]; simpl.
    + rewrite Nat.add_0_r, Z.eqb_refl, operation_samples_low by lia.
      reflexivity.
    + destruct (Z.eqb_spec (Z.of_nat i) (Z.of_nat (i + S k))); [lia|].
      rewrite Nat.add_succ_r. apply (IH (S i) k). lia.
Qed.

Lemma GetVmOperationDataSamples_split (times : list Z) (cluster_time : Z)
  (operation : string) (vms : list VirtualMachine) :
  exists md : Metadata,
    lookup_meta "machine_instance" md = None
    /\ _GetVmOperationDataSamples times cluster_time operation vms
       = operation_samples (operation ++ " Time") (length vms) 0 times vms
         ++ [Build_Sample ("Cluster " ++ operation ++ " Time") cluster_time
               seconds md].
Proof. eexists. split; [|reflexivity]. reflexivity. Qed.

(** [max] over timestamps that are all set. *)
Lemma py_max_from_set (l : list Z) :
  forall z : Z,
    py_max_from (Some z) (map Some l) = Ok (Some (fold_left Z.max l z)).
Proof.
  induction l as [|x l IH]; intros z; simpl; [reflexivity|].
  destruct (Z.ltb_spec z x); rewrite IH; do 3 f_equal; lia.
Qed.

Lemma map_result_set (vms : list VirtualMachine) :
  Forall (fun vm => is_set (delete_start_time vm)
                    /\ is_set (delete_end_time vm)) vms ->
  map_result (fun vm => py_sub (delete_end_time vm) (delete_start_time vm))
    vms
  = Ok (map (fun vm => tval (delete_end_time vm)
                       - tval (delete_start_time vm)) vms).
Proof.
  induction 1 as [|vm rest [Hs He] _ IH]; simpl; [reflexivity|].
  rewrite IH.
  destruct (delete_start_time vm); [|now elim Hs].
  destruct (delete_end_time vm); [|now elim He]. reflexivity.
Qed.

Lemma set_delete_end_times (vms : list VirtualMachine) :
  Forall (fun vm => is_set (delete_start_time vm)
                    /\ is_set (delete_end_time vm)) vms ->
  map delete_end_time vms
  = map Some (map (fun vm => tval (delete_end_time vm)) vms).
Proof.
  induction 1 as [|vm rest [_ He] _ IH]; simpl; [reflexivity|].
  rewrite IH. destruct (delete_end_time vm); [reflexivity | now elim He].
Qed.

Lemma fold_max_maximum (l : list Z) (z : Z) :
  is_maximum (fold_left Z.max l z) (z :: l).
Proof.
  destruct (fold_max_bounds l z) as (H1 & H2 & H3). split.
  - destruct H3 as [H3 | H3]; [left; now rewrite H3 | now right].
  - constructor; assumption.
Qed.

Lemma py_max_set (l : list Z) :
  l <> [] ->
  exists M : Z, py_max (map Some l) = Ok (Some M) /\ is_maximum M l.
Proof.
  destruct l as [|z l]; [congruence|]. intros _.
  exists (fold_left Z.max l z). split.
  - apply py_max_from_set.
  - apply fold_max_maximum.
Qed.

Lemma operation_values (times : list Z) (cluster_time : Z)
  (vms : list VirtualMachine) (operation : string) :
  String.eqb (operation ++ " Time") ("Cluster " ++ operation ++ " Time")
  = false ->
  length times = length vms ->
  let l := _GetVmOperationDataSamples times cluster_time operation vms in
  values_named (operation ++ " Time") l = times
  /\ (forall i : nat,
        instance_values (operation ++ " Time") i l
        = match nth_error times i with
          | Some t => [t]
          | None => []
          end)
  /\ values_named ("Cluster " ++ operation ++ " Time") l = [cluster_time].
Proof.
  intros Hname Hlen l. subst l.
  destruct (GetVmOperationDataSamples_split times cluster_time operation
              vms) as (md & Hmd & ->).
  assert (Hname' :
    String.eqb ("Cluster " ++ operation ++ " Time") (operation ++ " Time")
    = false) by (now rewrite String.eqb_sym).
  unfold values_named, instance_values.
  rewrite !samples_named_app, !operation_samples_named.
  rewrite String.eqb_refl, Hname. unfold samples_named.
  cbn [filter metric app map].
  rewrite String.eqb_refl, Hname'. cbn [filter app map value].
  rewrite app_nil_r.
  split; [now apply operation_samples_values|]. split; [|reflexivity].
  intros i. now apply (operation_samples_of_instance _ _ vms 0 i).
Qed.

Section ConcurrentOperationsProperties.

Variable World : Type.
Variable time_time : World -> Z * World.
Variable RunThreaded_Reboot :
  list VirtualMachine -> World -> result (list Z) * World.
Variable RunThreaded_Delete :
  list VirtualMachine -> World -> result (list VirtualMachine) * World.

(** C7.  With the clock reading [t0] before the reboot tasks start and [t1]
    once they have all returned, [_MeasureReboot] returns one "Reboot Time"
    sample per machine, whose value is the duration that machine's task
    reported, and one "Cluster Reboot Time" sample of value [t1 - t0],
    whatever the reported durations are. *)
Theorem reboot_cluster_time_is_elapsed (vms : list VirtualMachine)
  (w w1 w2 w3 : World) (t0 t1 : Z) (reboot_times : list Z) :
  time_time w = (t0, w1) ->
  RunThreaded_Reboot vms w1 = (Ok reboot_times, w2) ->
  time_time w2 = (t1, w3) ->
  length reboot_times = length vms ->
  exists l : list Sample,
    _MeasureReboot World time_time RunThreaded_Reboot vms w = (Ok l, w3)
    /\ values_named "Reboot Time" l = reboot_times
    /\ (forall i : nat,
          instance_values "Reboot Time" i l
          = match nth_error reboot_times i with
            | Some t => [t]
            | None => []
            end)
    /\ values_named "Cluster Reboot Time" l = [t1 - t0].
Proof.
  intros H0 Hrun H1 Hlen.
  exists (_GetVmOperationDataSamples reboot_times (t1 - t0) "Reboot" vms).
  split.
  - unfold _MeasureReboot, act_bind, act_time, act_ret.
    now rewrite H0, Hrun, H1.
  - apply (operation_values reboot_times (t1 - t0) vms "Reboot");
      [reflexivity | exact Hlen].
Qed.

(** C6.  With the clock reading [t0] before the delete tasks start,
    [MeasureDelete] returns, for the non-empty list of machines as the
    tasks leave them, one "Delete Time" sample per machine of value
    [delete_end_time - delete_start_time], and one "Cluster Delete Time"
    sample whose value is the greatest [delete_end_time] minus [t0]. *)
Theorem delete_cluster_time_is_max_end (vms vms' : list VirtualMachine)
  (w w1 w2 : World) (t0 : Z) :
  time_time w = (t0, w1) ->
  RunThreaded_Delete vms w1 = (Ok vms', w2) ->
  vms' <> [] ->
  Forall (fun vm => is_set (delete_start_time vm)
                    /\ is_set (delete_end_time vm)) vms' ->
  exists (l : list Sample) (M : Z),
    MeasureDelete World time_time RunThreaded_Delete vms w = (Ok l, w2)
    /\ values_named "Delete Time" l
       = map (fun vm => tval (delete_end_time vm)
                        - tval (delete_start_time vm)) vms'
    /\ (forall (i : nat) (vm : VirtualMachine),
          nth_error vms' i = Some vm ->
          instance_values "Delete Time" i l
          = [tval (delete_end_time vm) - tval (delete_start_time vm)])
    /\ is_maximum M (map (fun vm => tval (delete_end_time vm)) vms')
    /\ values_named "Cluster Delete Time" l = [M - t0].
Proof.
  intros H0 Hrun Hne Hset.
  set (times := map (fun vm => tval (delete_end_time vm)
                               - tval (delete_start_time vm)) vms').
  destruct (py_max_set (map (fun vm => tval (delete_end_time vm)) vms'))
    as (M & HM & Hmax); [now destruct vms'|].
  exists (_GetVmOperationDataSamples times (M - t0) "Delete" vms'), M.
  assert (Hlen : length times = length vms') by apply length_map.
  destruct (operation_values times (M - t0) vms' "Delete" eq_refl Hlen)
    as (Hv & Hi & Hc).
  split; [|split; [exact Hv | split; [|split; [exact Hmax | exact Hc]]]].
  - unfold MeasureDelete, act_bind, act_time, act_ret, act_lift.
    rewrite H0, Hrun, (map_result_set vms' Hset).
    now rewrite (set_delete_end_times vms' Hset), HM.
  - intros i v Hnth. rewrite Hi. unfold times.
    now rewrite nth_error_map, Hnth.
Qed.

End ConcurrentOperationsProperties.

Lemma reboot_cluster_time_is_elapsed_witness :
  clock_time 1000 = (1000, 1000)
  /\ scenario_B_reboot two_vms 1000 = (Ok [5; 7], 1008)
  /\ clock_time 1008 = (1008, 1008)
  /\ length [5; 7] = length two_vms
  /\ exists l : list Sample,
       _MeasureReboot Z clock_time scenario_B_reboot two_vms 1000
       = (Ok l, 1008)
       /\ values_named "Reboot Time" l = [5; 7]
       /\ (forall i : nat,
             instance_values "Reboot Time" i l
             = match nth_error [5; 7] i with
               | Some t => [t]
               | None => []
               end)
       /\ values_named "Cluster Reboot Time" l = [1008 - 1000].
Proof.
  repeat (split; [reflexivity|]).
  exact (reboot_cluster_time_is_elapsed Z clock_time scenario_B_reboot
           two_vms 1000 1000 1008 1008 1000 1008 [5; 7]
           eq_refl eq_refl eq_refl eq_refl).
Defined.

(** Scenario B: the cluster value is the 8 s that elapsed, not the 7 s of
    the slowest reboot. *)
Example scenario_B_values :
  exists l : list Sample,
    _MeasureReboot Z clock_time scenario_B_reboot two_vms 1000
    = (Ok l, 1008)
    /\ map (fun s => (metric s, value s)) l
       = [ ("Reboot Time", 5); ("Reboot Time", 7);
           ("Cluster Reboot Time", 8) ]%string.
Proof. eexists. split; reflexivity. Qed.

Lemma deleted_vms_set :
  Forall (fun vm => is_set (delete_start_time vm)
                    /\ is_set (delete_end_time vm)) deleted_vms.
Proof. repeat constructor; discriminate. Qed.

Lemma delete_cluster_time_is_max_end_witness :
  clock_time 0 = (0, 0)
  /\ scenario_C_delete two_vms 0 = (Ok deleted_vms, 9)
  /\ deleted_vms <> []
  /\ Forall (fun vm => is_set (delete_start_time vm)
                       /\ is_set (delete_end_time vm)) deleted_vms
  /\ exists (l : list Sample) (M : Z),
       MeasureDelete Z clock_time scenario_C_delete two_vms 0 = (Ok l, 9)
       /\ values_named "Delete Time" l
          = map (fun vm => tval (delete_end_time vm)
                           - tval (delete_start_time vm)) deleted_vms
       /\ (forall (i : nat) (vm : VirtualMachine),
             nth_error deleted_vms i = Some vm ->
             instance_values "Delete Time" i l
             = [tval (delete_end_time vm) - tval (delete_start_time vm)])
       /\ is_maximum M
            (map (fun vm => tval (delete_end_time vm)) deleted_vms)
       /\ values_named "Cluster Delete Time" l = [M - 0].
Proof.
  split; [reflexivity|]. split; [reflexivity|]. split; [discriminate|].
  split; [exact deleted_vms_set|].
  apply (delete_cluster_time_is_max_end Z clock_time scenario_C_delete
           two_vms deleted_vms 0 0 9 0 eq_refl eq_refl);
    [discriminate | exact deleted_vms_set].
Defined.

(** Scenario C: durations 6 and 8, cluster value 9. *)
Example scenario_C_values :
  exists l : list Sample,
    MeasureDelete Z clock_time scenario_C_delete two_vms 0 = (Ok l, 9)
    /\ map (fun s => (metric s, value s)) l
       = [ ("Delete Time", 6); ("Delete Time", 8);
           ("Cluster Delete Time", 9) ]%string.
Proof. eexists. split; reflexivity. Qed.

(** On the empty list [max] has nothing to return and the call raises. *)
Example delete_nothing_raises :
  MeasureDelete Z clock_time (fun vms w => (Ok vms, w)) [] 0
  = (Raise ValueError, 0).
Proof. reflexivity. Qed.

(** * Further properties of [GetTimeToBoot] *)

(** ** The RDP port and the cluster-wide listening times *)

Lemma rdp_listening_of_instance (FLAGS : Flags) (n : nat) (m : Z) (i : nat)
  (vm : VirtualMachine) :
  samples_named "RDP Port Listening Time" (instance_samples FLAGS n m i vm)
  = flagged_sample (cluster_boot_test_rdp_port_listening FLAGS)
      "RDP Port Listening Time" (rdp_port_listening_time vm) m
      (instance_metadata i n vm (tval (create_start_time vm) - m)).
Proof. by_name. Qed.

Lemma loop_vars_max_port (FLAGS : Flags) (num_vms : nat) (m : Z)
  (vms : list VirtualMachine) :
  cluster_boot_test_port_listening FLAGS = true ->
  forall (i : nat) (st : BootVars),
    max_port_listening_time_sec (loop_vars FLAGS num_vms m i vms st)
    = fold_left Z.max
        (map (fun vm => tval (port_listening_time vm) - m) vms)
        (max_port_listening_time_sec st).
Proof.
  intros Hflag.
  induction vms as [|vm rest IH]; intros i st; simpl; [reflexivity|].
  rewrite IH. simpl. now rewrite Hflag, py_max2_max.
Qed.

Lemma loop_vars_max_rdp (FLAGS : Flags) (num_vms : nat) (m : Z)
  (vms : list VirtualMachine) :
  cluster_boot_test_rdp_port_listening FLAGS = true ->
  forall (i : nat) (st : BootVars),
    max_rdp_port_listening_time_sec (loop_vars FLAGS num_vms m i vms st)
    = fold_left Z.max
        (map (fun vm => tval (rdp_port_listening_time vm) - m) vms)
        (max_rdp_port_listening_time_sec st).
Proof.
  intros Hflag.
  induction vms as [|vm rest IH]; intros i st; simpl; [reflexivity|].
  rewrite IH. simpl. now rewrite Hflag, py_max2_max.
Qed.

(** The samples of a cluster-wide metric are among the cluster samples. *)
Lemma samples_named_cluster_only (name : string) (FLAGS : Flags)
  (vms : list VirtualMachine) :
  (forall n m i vm,
      samples_named name (instance_samples FLAGS n m i vm) = []) ->
  samples_named name (boot_samples FLAGS vms)
  = samples_named name
      (cluster_samples FLAGS (length vms)
         (loop_vars FLAGS (length vms) (reference_time vms) 0 vms
            boot_vars_init)).
Proof.
  intros H. unfold boot_samples. cbv zeta.
  rewrite samples_named_app, samples_named_loop.
  now rewrite concat_mapi_nil by (intros; apply H).
Qed.

Lemma cluster_port_listening_sample (FLAGS : Flags) (n : nat)
  (st : BootVars) :
  map value
    (samples_named "Cluster Port Listening Time" (cluster_samples FLAGS n st))
  = if cluster_boot_test_port_listening FLAGS
    then [max_port_listening_time_sec st] else [].
Proof.
  unfold cluster_samples.
  destruct (cluster_boot_test_port_listening FLAGS),
    (cluster_boot_test_rdp_port_listening FLAGS); reflexivity.
Qed.

Lemma cluster_rdp_listening_sample (FLAGS : Flags) (n : nat)
  (st : BootVars) :
  map value
    (samples_named "Cluster RDP Port Listening Time"
       (cluster_samples FLAGS n st))
  = if cluster_boot_test_rdp_port_listening FLAGS
    then [max_rdp_port_listening_time_sec st] else [].
Proof.
  unfold cluster_samples.
  destruct (cluster_boot_test_port_listening FLAGS),
    (cluster_boot_test_rdp_port_listening FLAGS); reflexivity.
Qed.

(** What the preconditions say of one machine and the reference time. *)
Lemma preconditions_bounds (FLAGS : Flags) (vms : list VirtualMachine)
  (vm : VirtualMachine) :
  vms <> [] ->
  In vm vms ->
  preconditions FLAGS vm ->
  reference_time vms <= tval (create_start_time vm)
  /\ tval (create_start_time vm) <= tval (bootable_time vm)
  /\ (cluster_boot_test_port_listening FLAGS = true ->
      tval (create_start_time vm) <= tval (port_listening_time vm))
  /\ (cluster_boot_test_rdp_port_listening FLAGS = true ->
      tval (create_start_time vm) <= tval (rdp_port_listening_time vm)).
Proof.
  intros Hne Hin (c & b & Hc & Hb & Hcb & Hp & Hr).
  destruct (reference_time_minimum vms Hne) as [_ Hmin].
  rewrite Forall_map, Forall_forall in Hmin. specialize (Hmin vm Hin).
  cbv beta in Hmin.
  rewrite (present_tval _ _ Hc), (present_tval _ _ Hb) in *.
  repeat split; try assumption.
  - intros E. destruct (Hp E) as (p & Hp1 & Hp2).
    now rewrite (present_tval _ _ Hp1).
  - intros E. destruct (Hr E) as (p & Hp1 & Hp2).
    now rewrite (present_tval _ _ Hp1).
Qed.

Lemma no_cluster_port_in_instance (FLAGS : Flags) (n : nat) (m : Z)
  (i : nat) (vm : VirtualMachine) :
  samples_named "Cluster Port Listening Time"
    (instance_samples FLAGS n m i vm) = [].
Proof. by_name. Qed.

Lemma no_cluster_rdp_in_instance (FLAGS : Flags) (n : nat) (m : Z)
  (i : nat) (vm : VirtualMachine) :
  samples_named "Cluster RDP Port Listening Time"
    (instance_samples FLAGS n m i vm) = [].
Proof. by_name. Qed.

Lemma no_rdp_listening_in_cluster (FLAGS : Flags) (n : nat)
  (st : BootVars) :
  samples_named "RDP Port Listening Time" (cluster_samples FLAGS n st) = [].
Proof.
  unfold cluster_samples.
  destruct (cluster_boot_test_port_listening FLAGS),
    (cluster_boot_test_rdp_port_listening FLAGS); reflexivity.
Qed.

Lemma mapi_const {A B : Type} (g : A -> B) (l : list A) :
  forall i : nat, mapi (fun _ a => g a) i l = map g l.
Proof.
  induction l as [|a l IH]; intros i; simpl; [|rewrite IH]; reflexivity.
Qed.

Lemma map_nil_inv {A B : Type} (f : A -> B) (l : list A) :
  map f l = [] -> l = [].
Proof. destruct l; [reflexivity | discriminate]. Qed.

(** X1.  The RDP flag gates "RDP Port Listening Time" as the port flag gates
    "Port Listening Time".  Enabled: a call on machines meeting the
    preconditions returns for each machine one sample of value
    [rdp_port_listening_time] minus the reference time, and one
    "Cluster RDP Port Listening Time" whose value is their maximum; a
    machine without [rdp_port_listening_time], or with one before its
    [create_start_time], makes the call raise.  Disabled: neither metric is
    returned. *)
Theorem rdp_port_listening_time_gated (FLAGS : Flags)
  (vms : list VirtualMachine) :
  (cluster_boot_test_rdp_port_listening FLAGS = true ->
   (vms <> [] ->
    Forall (preconditions FLAGS) vms ->
    exists (l : list Sample) (M : Z),
      GetTimeToBoot FLAGS vms = Ok l
      /\ (forall (i : nat) (vm : VirtualMachine) (p : Z),
            nth_error vms i = Some vm ->
            rdp_port_listening_time vm = Some p ->
            instance_values "RDP Port Listening Time" i l
            = [p - reference_time vms])
      /\ is_maximum M
           (map (fun vm =>
                   tval (rdp_port_listening_time vm) - reference_time vms)
              vms)
      /\ values_named "Cluster RDP Port Listening Time" l = [M])
   /\ ((exists vm : VirtualMachine,
          In vm vms
          /\ (rdp_port_listening_time vm = None
              \/ exists p c : Z,
                   rdp_port_listening_time vm = Some p
                   /\ create_start_time vm = Some c /\ p < c)) ->
       exists e : PyError, GetTimeToBoot FLAGS vms = Raise e))
  /\ (cluster_boot_test_rdp_port_listening FLAGS = false ->
      forall l : list Sample,
        GetTimeToBoot FLAGS vms = Ok l ->
        samples_named "RDP Port Listening Time" l = []
        /\ samples_named "Cluster RDP Port Listening Time" l = []).
Proof.
  split.
  - intros Hflag. split.
    + intros Hne Hpre. exists (boot_samples FLAGS vms). eexists.
      split; [now apply GetTimeToBoot_total|]. split; [|split].
      * intros i vm p Hi Hp.
        rewrite (instance_values_boot_samples _ _ _ _ _ Hi).
        rewrite rdp_listening_of_instance, Hflag, Hp. reflexivity.
      * apply fold_max_from_zero.
        -- destruct vms; [congruence | discriminate].
        -- apply Forall_map. rewrite Forall_forall in *. intros vm Hin.
           destruct (preconditions_bounds FLAGS vms vm Hne Hin (Hpre vm Hin))
             as (H1 & _ & _ & H4).
           specialize (H4 Hflag). lia.
      * unfold values_named.
        rewrite samples_named_cluster_only
          by (intros; apply no_cluster_rdp_in_instance).
        rewrite cluster_rdp_listening_sample, Hflag.
        now rewrite loop_vars_max_rdp.
    + intros (vm & Hin & Hbad).
      destruct (GetTimeToBoot_violation FLAGS vms) as (e & He & _);
        [|now exists e].
      apply Exists_exists. exists vm. split; [exact Hin|].
      right; right; right; right. split; [exact Hflag|].
      destruct Hbad as [-> | (p & c & -> & -> & Hpc)];
        [now left | now right].
  - intros Hflag l Hl.
    destruct (GetTimeToBoot_returns FLAGS vms l Hl) as (_ & He & Hs).
    destruct vms as [|vm rest]; [now rewrite He|].
    rewrite Hs by discriminate. split.
    + unfold boot_samples. cbv zeta.
      rewrite samples_named_app, samples_named_loop,
        no_rdp_listening_in_cluster, app_nil_r.
      apply concat_mapi_nil. intros j a.
      now rewrite rdp_listening_of_instance, Hflag.
    + rewrite samples_named_cluster_only
        by (intros; apply no_cluster_rdp_in_instance).
      apply (map_nil_inv value).
      now rewrite cluster_rdp_listening_sample, Hflag.
Qed.

Lemma rdp_port_listening_time_gated_witness :
  (cluster_boot_test_rdp_port_listening rdp_flags = true
   /\ windows_vms <> []
   /\ Forall (preconditions rdp_flags) windows_vms
   /\ exists (l : list Sample) (M : Z),
        GetTimeToBoot rdp_flags windows_vms = Ok l
        /\ (forall (i : nat) (vm : VirtualMachine) (p : Z),
              nth_error windows_vms i = Some vm ->
              rdp_port_listening_time vm = Some p ->
              instance_values "RDP Port Listening Time" i l
              = [p - reference_time windows_vms])
        /\ is_maximum M
             (map (fun vm =>
                     tval (rdp_port_listening_time vm)
                     - reference_time windows_vms) windows_vms)
        /\ values_named "Cluster RDP Port Listening Time" l = [M])
  /\ ((exists vm : VirtualMachine,
         In vm scenario_A
         /\ (rdp_port_listening_time vm = None
             \/ exists p c : Z,
                  rdp_port_listening_time vm = Some p
                  /\ create_start_time vm = Some c /\ p < c))
      /\ exists e : PyError, GetTimeToBoot rdp_flags scenario_A = Raise e)
  /\ (cluster_boot_test_rdp_port_listening no_flags = false
      /\ GetTimeToBoot no_flags windows_vms
         = Ok (boot_samples no_flags windows_vms)
      /\ samples_named "RDP Port Listening Time"
           (boot_samples no_flags windows_vms) = []
      /\ samples_named "Cluster RDP Port Listening Time"
           (boot_samples no_flags windows_vms) = []).
Proof.
  assert (Hpre : Forall (preconditions rdp_flags) windows_vms)
    by (apply preconditions_forallb; reflexivity).
  assert (Hne : windows_vms <> []) by discriminate.
  assert (Hbad : exists vm : VirtualMachine,
             In vm scenario_A
             /\ (rdp_port_listening_time vm = None
                 \/ exists p c : Z,
                      rdp_port_listening_time vm = Some p
                      /\ create_start_time vm = Some c /\ p < c)).
  { exists (basic_vm "debian" 100 110). split; [now left | now left]. }
  split; [|split].
  - split; [reflexivity|]. split; [exact Hne|]. split; [exact Hpre|].
    exact (proj1 (proj1 (rdp_port_listening_time_gated rdp_flags
                           windows_vms) eq_refl) Hne Hpre).
  - split; [exact Hbad|].
    exact (proj2 (proj1 (rdp_port_listening_time_gated rdp_flags scenario_A)
                    eq_refl) Hbad).
  - split; [reflexivity|]. split; [reflexivity|].
    exact (proj2 (rdp_port_listening_time_gated no_flags windows_vms)
             eq_refl _ eq_refl).
Defined.

Example windows_vms_values :
  exists l : list Sample,
    GetTimeToBoot rdp_flags windows_vms = Ok l
    /\ map (fun s => (metric s, value s)) l
       = [ ("Boot Time", 20); ("RDP Port Listening Time", 25);
           ("Boot Time", 19); ("RDP Port Listening Time", 30);
           ("Cluster Boot Time", 20);
           ("Cluster RDP Port Listening Time", 30) ]%string.
Proof. eexists. split; reflexivity. Qed.

(** X2.  With the port flag enabled, a call on machines meeting the
    preconditions returns one "Cluster Port Listening Time" sample, whose
    value is the greatest "Port Listening Time"; with the flag disabled it
    returns none. *)
Theorem cluster_port_listening_time_is_max (FLAGS : Flags)
  (vms : list VirtualMachine) :
  (cluster_boot_test_port_listening FLAGS = true ->
   vms <> [] ->
   Forall (preconditions FLAGS) vms ->
   exists (l : list Sample) (M : Z),
     GetTimeToBoot FLAGS vms = Ok l
     /\ is_maximum M (values_named "Port Listening Time" l)
     /\ values_named "Cluster Port Listening Time" l = [M])
  /\ (cluster_boot_test_port_listening FLAGS = false ->
      forall l : list Sample,
        GetTimeToBoot FLAGS vms = Ok l ->
        samples_named "Cluster Port Listening Time" l = []).
Proof.
  split.
  - intros Hflag Hne Hpre. exists (boot_samples FLAGS vms). eexists.
    split; [now apply GetTimeToBoot_total|].
    assert (Hvals :
      values_named "Port Listening Time" (boot_samples FLAGS vms)
      = map (fun vm => tval (port_listening_time vm) - reference_time vms)
          vms).
    { unfold values_named, boot_samples. cbv zeta.
      rewrite samples_named_app, samples_named_loop,
        no_port_listening_in_cluster, app_nil_r.
      rewrite (concat_mapi_single _
                 (fun i vm =>
                    Build_Sample "Port Listening Time"
                      (tval (port_listening_time vm) - reference_time vms)
                      seconds
                      (instance_metadata i (length vms) vm
                         (tval (create_start_time vm)
                          - reference_time vms)))).
      - rewrite map_mapi. cbn [value]. apply mapi_const.
      - intros j a. rewrite port_listening_of_instance, Hflag. reflexivity. }
    rewrite Hvals. split.
    + apply fold_max_from_zero.
      * destruct vms; [congruence | discriminate].
      * apply Forall_map. rewrite Forall_forall in *. intros vm Hin.
        destruct (preconditions_bounds FLAGS vms vm Hne Hin (Hpre vm Hin))
          as (H1 & _ & H3 & _).
        specialize (H3 Hflag). lia.
    + unfold values_named.
      rewrite samples_named_cluster_only
        by (intros; apply no_cluster_port_in_instance).
      rewrite cluster_port_listening_sample, Hflag.
      now rewrite loop_vars_max_port.
  - intros Hflag l Hl.
    destruct (GetTimeToBoot_returns FLAGS vms l Hl) as (_ & He & Hs).
    destruct vms as [|vm rest]; [now rewrite He|].
    rewrite Hs by discriminate.
    rewrite samples_named_cluster_only
      by (intros; apply no_cluster_port_in_instance).
    apply (map_nil_inv value).
    now rewrite cluster_port_listening_sample, Hflag.
Qed.

Lemma cluster_port_listening_time_is_max_witness :
  (cluster_boot_test_port_listening port_flags = true
   /\ port_vms <> []
   /\ Forall (preconditions port_flags) port_vms
   /\ exists (l : list Sample) (M : Z),
        GetTimeToBoot port_flags port_vms = Ok l
        /\ is_maximum M (values_named "Port Listening Time" l)
        /\ values_named "Cluster Port Listening Time" l = [M])
  /\ (cluster_boot_test_port_listening no_flags = false
      /\ GetTimeToBoot no_flags port_vms = Ok (boot_samples no_flags port_vms)
      /\ samples_named "Cluster Port Listening Time"
           (boot_samples no_flags port_vms) = []).
Proof.
  assert (Hpre : Forall (preconditions port_flags) port_vms)
    by (apply preconditions_forallb; reflexivity).
  assert (Hne : port_vms <> []) by discriminate.
  split.
  - split; [reflexivity|]. split; [exact Hne|]. split; [exact Hpre|].
    exact (proj1 (cluster_port_listening_time_is_max port_flags port_vms)
             eq_refl Hne Hpre).
  - split; [reflexivity|]. split; [reflexivity|].
    exact (proj2 (cluster_port_listening_time_is_max no_flags port_vms)
             eq_refl _ eq_refl).
Defined.

(** ** The warning on the create delays *)

Lemma loop_vars_max_create_delay (FLAGS : Flags) (num_vms : nat) (m : Z)
  (vms : list VirtualMachine) :
  forall (i : nat) (st : BootVars),
    max_create_delay_sec (loop_vars FLAGS num_vms m i vms st)
    = fold_left Z.max (map (fun vm => tval (create_start_time vm) - m) vms)
        (max_create_delay_sec st).
Proof.
  induction vms as [|vm rest IH]; intros i st; simpl; [reflexivity|].
  rewrite IH. simpl. now rewrite py_max2_max.
Qed.

(** The samples and the log of a call that passes its assertions. *)
Lemma GetTimeToBoot_logged_total (FLAGS : Flags)
  (vms : list VirtualMachine) :
  vms <> [] ->
  Forall (preconditions FLAGS) vms ->
  GetTimeToBoot_logged FLAGS vms
  = Ok (boot_samples FLAGS vms,
        create_delay_warnings
          (loop_vars FLAGS (length vms) (reference_time vms) 0 vms
             boot_vars_init)).
Proof.
  intros Hne Hpre. apply preconditions_forallb in Hpre.
  unfold GetTimeToBoot_logged.
  destruct vms as [|vm rest] eqn:E; [congruence|]. rewrite <- E in *.
  rewrite (min_create_start_time_set vms Hne (asserts_set FLAGS vms Hpre)).
  cbn [bind]. rewrite boot_loop_spec, Hpre. cbn [bind].
  unfold boot_samples. now rewrite loop_vars_samples.
Qed.

(** The greatest create delay of machines that meet the preconditions. *)
Lemma max_create_delay_maximum (FLAGS : Flags) (vms : list VirtualMachine) :
  vms <> [] ->
  Forall (preconditions FLAGS) vms ->
  is_maximum
    (max_create_delay_sec
       (loop_vars FLAGS (length vms) (reference_time vms) 0 vms
          boot_vars_init))
    (map (fun vm => tval (create_start_time vm) - reference_time vms) vms).
Proof.
  intros Hne Hpre. rewrite loop_vars_max_create_delay.
  apply fold_max_from_zero.
  - destruct vms; [congruence | discriminate].
  - apply Forall_map. rewrite Forall_forall in *. intros vm Hin.
    destruct (preconditions_bounds FLAGS vms vm Hne Hin (Hpre vm Hin))
      as (H1 & _). lia.
Qed.

(** X3.  A call that passes its assertions logs at most one warning, and
    logs it exactly when some machine's [create_start_time] is more than one
    second after the earliest; the samples returned are the same either
    way. *)
Theorem create_delay_warning (FLAGS : Flags) (vms : list VirtualMachine) :
  vms <> [] ->
  Forall (preconditions FLAGS) vms ->
  exists (l : list Sample) (log : list string),
    GetTimeToBoot_logged FLAGS vms = Ok (l, log)
    /\ GetTimeToBoot FLAGS vms = Ok l
    /\ (length log <= 1)%nat
    /\ (log <> [] <->
        exists vm : VirtualMachine,
          In vm vms
          /\ 1 < tval (create_start_time vm) - reference_time vms).
Proof.
  intros Hne Hpre.
  pose proof (max_create_delay_maximum FLAGS vms Hne Hpre) as [Hin Hmax].
  do 2 eexists. split; [now apply GetTimeToBoot_logged_total|].
  split; [now apply GetTimeToBoot_total|].
  unfold create_delay_warnings.
  set (M := max_create_delay_sec _) in *.
  destruct (Z.ltb_spec 1 M) as [HM | HM]; simpl.
  - split; [lia|]. split; [|discriminate]. intros _.
    apply in_map_iff in Hin. destruct Hin as (vm & E & Hvm).
    exists vm. split; [exact Hvm | lia].
  - split; [lia|]. split; [congruence|]. intros (vm & Hvm & Hd).
    rewrite Forall_map, Forall_forall in Hmax. specialize (Hmax vm Hvm).
    cbv beta in Hmax. lia.
Qed.

Lemma create_delay_warning_witness :
  scenario_A <> []
  /\ Forall (preconditions no_flags) scenario_A
  /\ exists (l : list Sample) (log : list string),
       GetTimeToBoot_logged no_flags scenario_A = Ok (l, log)
       /\ GetTimeToBoot no_flags scenario_A = Ok l
       /\ (length log <= 1)%nat
       /\ (log <> [] <->
           exists vm : VirtualMachine,
             In vm scenario_A
             /\ 1 < tval (create_start_time vm) - reference_time scenario_A).
Proof.
  assert (Hpre : Forall (preconditions no_flags) scenario_A)
    by (apply preconditions_forallb; reflexivity).
  split; [discriminate|]. split; [exact Hpre|].
  apply (create_delay_warning no_flags scenario_A);
    [discriminate | exact Hpre].
Defined.

Example no_warning_within_a_second :
  option_map snd
    (match GetTimeToBoot_logged no_flags
             [basic_vm "debian" 100 110; basic_vm "debian" 101 113] with
     | Ok r => Some r
     | Raise _ => None
     end)
  = Some [].
Proof. reflexivity. Qed.

(** ** Which exception a missing [create_start_time] raises *)

(** X4.  A machine whose [create_start_time] was never set makes the call
    raise: [TypeError], from [min], when there are two machines or more,
    whatever the other machines and the flags are; [AssertionError], from
    the first assertion of the loop, when it is the only machine. *)
Theorem missing_create_start_time (FLAGS : Flags)
  (vms : list VirtualMachine) :
  (exists vm : VirtualMachine, In vm vms /\ create_start_time vm = None) ->
  (length vms = 1%nat -> GetTimeToBoot FLAGS vms = Raise AssertionError)
  /\ ((2 <= length vms)%nat -> GetTimeToBoot FLAGS vms = Raise TypeError).
Proof.
  intros (vm & Hin & Hvm). split.
  - intros Hlen. destruct vms as [|v [|v' rest]]; try discriminate.
    destruct Hin as [-> | []].
    unfold GetTimeToBoot, GetTimeToBoot_logged, min_create_start_time.
    simpl map. unfold py_min, py_min_from. cbn [bind boot_loop].
    rewrite boot_step_unset; [reflexivity | now rewrite Hvm].
  - intros Hlen. destruct vms as [|v [|v' rest]]; simpl in Hlen; try lia.
    unfold GetTimeToBoot, GetTimeToBoot_logged, min_create_start_time.
    change (py_min (map create_start_time (v :: v' :: rest)))
      with (py_min_from (create_start_time v)
              (map create_start_time (v' :: rest))).
    rewrite py_min_from_unset; [reflexivity| |].
    + discriminate.
    + destruct Hin as [-> | Hin]; [left; exact Hvm | right].
      rewrite <- Hvm. now apply in_map.
Qed.

Lemma missing_create_start_time_witness :
  ((exists vm : VirtualMachine,
       In vm [unset_vm] /\ create_start_time vm = None)
   /\ length [unset_vm] = 1%nat
   /\ GetTimeToBoot no_flags [unset_vm] = Raise AssertionError)
  /\ ((exists vm : VirtualMachine,
          In vm [basic_vm "debian" 1 2; unset_vm]
          /\ create_start_time vm = None)
      /\ (2 <= length [basic_vm "debian" 1 2; unset_vm])%nat
      /\ GetTimeToBoot no_flags [basic_vm "debian" 1 2; unset_vm]
         = Raise TypeError).
Proof.
  assert (H1 : exists vm : VirtualMachine,
             In vm [unset_vm] /\ create_start_time vm = None).
  { exists unset_vm. split; [now left | reflexivity]. }
  assert (H2 : exists vm : VirtualMachine,
             In vm [basic_vm "debian" 1 2; unset_vm]
             /\ create_start_time vm = None).
  { exists unset_vm. split; [right; now left | reflexivity]. }
  split.
  - split; [exact H1|]. split; [reflexivity|].
    exact (proj1 (missing_create_start_time no_flags [unset_vm] H1) eq_refl).
  - split; [exact H2|]. split; [simpl; lia|].
    apply (proj2 (missing_create_start_time no_flags _ H2)). simpl. lia.
Defined.

(** ** The optional metrics *)

Lemma present_truthy (t : option Z) (z : Z) :
  present t z -> truthy t = true /\ tval t = z.
Proof.
  intros [-> Hz]. simpl. split; [|reflexivity].
  destruct (Z.eqb_spec z 0); [contradiction | reflexivity].
Qed.

(** X5.  "Time to Create Async Return" and, on a Linux machine, the two
    "Time to SSH" metrics are measured from the reference time, the least
    [create_start_time] of the cluster, unlike "Time to Running". *)
Theorem optional_metrics_cluster_relative (FLAGS : Flags)
  (vms : list VirtualMachine) :
  vms <> [] ->
  Forall (preconditions FLAGS) vms ->
  exists l : list Sample,
    GetTimeToBoot FLAGS vms = Ok l
    /\ forall (i : nat) (vm : VirtualMachine) (t : Z),
         nth_error vms i = Some vm ->
         (present (create_return_time vm) t ->
          instance_values "Time to Create Async Return" i l
          = [t - reference_time vms])
         /\ (is_linux vm = true ->
             present (ssh_external_time vm) t ->
             instance_values "Time to SSH - External" i l
             = [t - reference_time vms])
         /\ (is_linux vm = true ->
             present (ssh_internal_time vm) t ->
             instance_values "Time to SSH - Internal" i l
             = [t - reference_time vms]).
Proof.
  intros Hne Hpre. exists (boot_samples FLAGS vms).
  split; [now apply GetTimeToBoot_total|].
  intros i vm t Hi.
  rewrite !(instance_values_boot_samples _ _ _ _ _ Hi).
  split; [|split].
  - intros Ht. destruct (present_truthy _ _ Ht) as [H1 H2].
    by_name; unfold optional_sample; now rewrite H1, H2.
  - intros Hl Ht. destruct (present_truthy _ _ Ht) as [H1 H2].
    rewrite samples_named_instance. cbv zeta. rewrite Hl. simpl.
    unfold optional_sample. now rewrite H1, H2.
  - intros Hl Ht. destruct (present_truthy _ _ Ht) as [H1 H2].
    rewrite samples_named_instance. cbv zeta. rewrite Hl. simpl.
    unfold optional_sample. now rewrite H1, H2.
Qed.

Lemma optional_metrics_cluster_relative_witness :
  mixed_vms <> []
  /\ Forall (preconditions port_flags) mixed_vms
  /\ exists l : list Sample,
       GetTimeToBoot port_flags mixed_vms = Ok l
       /\ forall (i : nat) (vm : VirtualMachine) (t : Z),
            nth_error mixed_vms i = Some vm ->
            (present (create_return_time vm) t ->
             instance_values "Time to Create Async Return" i l
             = [t - reference_time mixed_vms])
            /\ (is_linux vm = true ->
                present (ssh_external_time vm) t ->
                instance_values "Time to SSH - External" i l
                = [t - reference_time mixed_vms])
            /\ (is_linux vm = true ->
                present (ssh_internal_time vm) t ->
                instance_values "Time to SSH - Internal" i l
                = [t - reference_time mixed_vms]).
Proof.
  assert (Hpre : Forall (preconditions port_flags) mixed_vms)
    by (apply preconditions_forallb; reflexivity).
  split; [discriminate|]. split; [exact Hpre|].
  apply (optional_metrics_cluster_relative port_flags mixed_vms);
    [discriminate | exact Hpre].
Defined.

(** X6.  An optional timestamp that was never set, and any SSH timestamp of
    a machine that is not Linux, gives no sample for that machine; the call
    returns all the same, with the "Boot Time" of that machine. *)
Theorem absent_optional_skipped (FLAGS : Flags)
  (vms : list VirtualMachine) :
  vms <> [] ->
  Forall (preconditions FLAGS) vms ->
  exists l : list Sample,
    GetTimeToBoot FLAGS vms = Ok l
    /\ forall (i : nat) (vm : VirtualMachine),
         nth_error vms i = Some vm ->
         (create_return_time vm = None ->
          instance_values "Time to Create Async Return" i l = [])
         /\ (is_running_time vm = None ->
             instance_values "Time to Running" i l = [])
         /\ (is_linux vm = false \/ ssh_external_time vm = None ->
             instance_values "Time to SSH - External" i l = [])
         /\ (is_linux vm = false \/ ssh_internal_time vm = None ->
             instance_values "Time to SSH - Internal" i l = [])
         /\ instance_values "Boot Time" i l
            = [tval (bootable_time vm) - reference_time vms].
Proof.
  intros Hne Hpre. exists (boot_samples FLAGS vms).
  split; [now apply GetTimeToBoot_total|].
  intros i vm Hi.
  rewrite !(instance_values_boot_samples _ _ _ _ _ Hi).
  split; [|split; [|split; [|split]]].
  - intros H. by_name; unfold optional_sample; now rewrite H.
  - intros H. by_name; unfold optional_sample; now rewrite H.
  - intros [H | H]; rewrite samples_named_instance; cbv zeta.
    + rewrite H. reflexivity.
    + simpl. unfold optional_sample. rewrite H.
      now destruct (is_linux vm).
  - intros [H | H]; rewrite samples_named_instance; cbv zeta.
    + rewrite H. reflexivity.
    + simpl. unfold optional_sample. rewrite H.
      now destruct (is_linux vm).
  - now rewrite boot_time_of_instance.
Qed.

Lemma absent_optional_skipped_witness :
  windows_vms <> []
  /\ Forall (preconditions rdp_flags) windows_vms
  /\ exists l : list Sample,
       GetTimeToBoot rdp_flags windows_vms = Ok l
       /\ forall (i : nat) (vm : VirtualMachine),
            nth_error windows_vms i = Some vm ->
            (create_return_time vm = None ->
             instance_values "Time to Create Async Return" i l = [])
            /\ (is_running_time vm = None ->
                instance_values "Time to Running" i l = [])
            /\ (is_linux vm = false \/ ssh_external_time vm = None ->
                instance_values "Time to SSH - External" i l = [])
            /\ (is_linux vm = false \/ ssh_internal_time vm = None ->
                instance_values "Time to SSH - Internal" i l = [])
            /\ instance_values "Boot Time" i l
               = [tval (bootable_time vm) - reference_time windows_vms].
Proof.
  assert (Hpre : Forall (preconditions rdp_flags) windows_vms)
    by (apply preconditions_forallb; reflexivity).
  split; [discriminate|]. split; [exact Hpre|].
  apply (absent_optional_skipped rdp_flags windows_vms);
    [discriminate | exact Hpre].
Defined.

(** ** Bounds on the values and on the number of samples *)

(** X7.  No "Boot Time" is negative, and none exceeds the
    "Cluster Boot Time". *)
Theorem boot_time_bounds (FLAGS : Flags) (vms : list VirtualMachine) :
  vms <> [] ->
  Forall (preconditions FLAGS) vms ->
  exists (l : list Sample) (M : Z),
    GetTimeToBoot FLAGS vms = Ok l
    /\ values_named "Cluster Boot Time" l = [M]
    /\ Forall (fun v => 0 <= v <= M) (values_named "Boot Time" l).
Proof.
  intros Hne Hpre. exists (boot_samples FLAGS vms). eexists.
  split; [now apply GetTimeToBoot_total|].
  split; [apply values_named_cluster_boot_time|].
  unfold values_named. rewrite samples_named_boot_time, map_mapi.
  cbn [value]. rewrite mapi_const.
  set (boots := map _ vms).
  assert (Hpos : Forall (fun x => 0 <= x) boots).
  { apply Forall_map. rewrite Forall_forall in *. intros vm Hin.
    destruct (preconditions_bounds FLAGS vms vm Hne Hin (Hpre vm Hin))
      as (H1 & H2 & _). lia. }
  destruct (fold_max_bounds boots 0) as (_ & Hle & _).
  rewrite Forall_forall in *. intros v Hv. split; [now apply Hpos|].
  now apply Hle.
Qed.

Lemma boot_time_bounds_witness :
  scenario_A <> []
  /\ Forall (preconditions no_flags) scenario_A
  /\ exists (l : list Sample) (M : Z),
       GetTimeToBoot no_flags scenario_A = Ok l
       /\ values_named "Cluster Boot Time" l = [M]
       /\ Forall (fun v => 0 <= v <= M) (values_named "Boot Time" l).
Proof.
  assert (Hpre : Forall (preconditions no_flags) scenario_A)
    by (apply preconditions_forallb; reflexivity).
  split; [discriminate|]. split; [exact Hpre|].
  apply (boot_time_bounds no_flags scenario_A); [discriminate | exact Hpre].
Defined.

Lemma instance_samples_length (FLAGS : Flags) (n : nat) (m : Z) (i : nat)
  (vm : VirtualMachine) :
  length (instance_samples FLAGS n m i vm) = emitted FLAGS vm.
Proof.
  unfold instance_samples, optional_sample, flagged_sample, emitted.
  destruct (truthy (create_return_time vm)), (truthy (is_running_time vm)),
    (is_linux vm), (truthy (ssh_external_time vm)),
    (truthy (ssh_internal_time vm)),
    (cluster_boot_test_port_listening FLAGS),
    (cluster_boot_test_rdp_port_listening FLAGS); reflexivity.
Qed.

Lemma emitted_bounds (FLAGS : Flags) (vm : VirtualMachine) :
  (cluster_emitted FLAGS <= emitted FLAGS vm <= cluster_emitted FLAGS + 4)%nat.
Proof.
  unfold emitted, cluster_emitted.
  destruct (truthy (create_return_time vm)), (truthy (is_running_time vm)),
    (is_linux vm), (truthy (ssh_external_time vm)),
    (truthy (ssh_internal_time vm)),
    (cluster_boot_test_port_listening FLAGS),
    (cluster_boot_test_rdp_port_listening FLAGS); simpl; lia.
Qed.

Lemma loop_samples_length (FLAGS : Flags) (n : nat) (m : Z)
  (vms : list VirtualMachine) :
  forall i : nat,
    length (loop_samples FLAGS n m i vms)
    = list_sum (map (emitted FLAGS) vms).
Proof.
  unfold loop_samples, loop_blocks.
  induction vms as [|vm rest IH]; intros i; simpl; [reflexivity|].
  now rewrite length_app, instance_samples_length, IH.
Qed.

Lemma cluster_samples_length (FLAGS : Flags) (n : nat) (st : BootVars) :
  length (cluster_samples FLAGS n st) = cluster_emitted FLAGS.
Proof.
  unfold cluster_samples, cluster_emitted.
  destruct (cluster_boot_test_port_listening FLAGS),
    (cluster_boot_test_rdp_port_listening FLAGS); reflexivity.
Qed.

Lemma list_sum_bounds (FLAGS : Flags) (vms : list VirtualMachine) :
  (length vms * cluster_emitted FLAGS
   <= list_sum (map (emitted FLAGS) vms)
   <= length vms * cluster_emitted FLAGS + 4 * length vms)%nat.
Proof.
  unfold list_sum.
  induction vms as [|vm rest IH]; cbn [length map fold_right]; [lia|].
  pose proof (emitted_bounds FLAGS vm). lia.
Qed.

(** X8.  The number of samples returned: each machine contributes its
    "Boot Time", one sample per enabled listening flag and at most four
    optional samples; the cluster contributes "Cluster Boot Time" and one
    sample per enabled flag. *)
Theorem sample_count (FLAGS : Flags) (vms : list VirtualMachine) :
  vms <> [] ->
  Forall (preconditions FLAGS) vms ->
  exists l : list Sample,
    GetTimeToBoot FLAGS vms = Ok l
    /\ length l
       = (list_sum (map (emitted FLAGS) vms) + cluster_emitted FLAGS)%nat
    /\ ((length vms + 1) * cluster_emitted FLAGS
        <= length l
        <= (length vms + 1) * cluster_emitted FLAGS + 4 * length vms)%nat.
Proof.
  intros Hne Hpre. exists (boot_samples FLAGS vms).
  split; [now apply GetTimeToBoot_total|].
  assert (Hlen : length (boot_samples FLAGS vms)
                 = (list_sum (map (emitted FLAGS) vms)
                    + cluster_emitted FLAGS)%nat).
  { unfold boot_samples. cbv zeta.
    now rewrite length_app, loop_samples_length, cluster_samples_length. }
  split; [exact Hlen|]. rewrite Hlen.
  pose proof (list_sum_bounds FLAGS vms). lia.
Qed.

Lemma sample_count_witness :
  mixed_vms <> []
  /\ Forall (preconditions port_flags) mixed_vms
  /\ exists l : list Sample,
       GetTimeToBoot port_flags mixed_vms = Ok l
       /\ length l
          = (list_sum (map (emitted port_flags) mixed_vms)
             + cluster_emitted port_flags)%nat
       /\ ((length mixed_vms + 1) * cluster_emitted port_flags
           <= length l
           <= (length mixed_vms + 1) * cluster_emitted port_flags
              + 4 * length mixed_vms)%nat.
Proof.
  assert (Hpre : Forall (preconditions port_flags) mixed_vms)
    by (apply preconditions_forallb; reflexivity).
  split; [discriminate|]. split; [exact Hpre|].
  apply (sample_count port_flags mixed_vms); [discriminate | exact Hpre].
Defined.

(** ** The metadata of the samples *)

Lemma instance_samples_unit (FLAGS : Flags) (n : nat) (m : Z) (i : nat)
  (vm : VirtualMachine) :
  Forall (fun s => unit_ s = "seconds"%string)
    (instance_samples FLAGS n m i vm).
Proof.
  unfold instance_samples, optional_sample, flagged_sample.
  repeat (apply Forall_app; split);
    repeat match goal with
      | |- context [if ?b then _ else _] => destruct b
      end;
    repeat (apply Forall_app; split);
    repeat constructor.
Qed.

Lemma loop_samples_unit (FLAGS : Flags) (n : nat) (m : Z)
  (vms : list VirtualMachine) :
  forall i : nat,
    Forall (fun s => unit_ s = "seconds"%string)
      (loop_samples FLAGS n m i vms).
Proof.
  unfold loop_samples, loop_blocks.
  induction vms as [|vm rest IH]; intros i; simpl; [constructor|].
  apply Forall_app. split; [apply instance_samples_unit | apply IH].
Qed.

Lemma cluster_samples_unit (FLAGS : Flags) (n : nat) (st : BootVars) :
  Forall (fun s => unit_ s = "seconds"%string
                  /\ metadata s = cluster_metadata n st)
    (cluster_samples FLAGS n st).
Proof.
  unfold cluster_samples.
  destruct (cluster_boot_test_port_listening FLAGS),
    (cluster_boot_test_rdp_port_listening FLAGS); repeat constructor.
Qed.

(** A returned sample is a cluster sample or a sample of some machine. *)
Lemma boot_samples_origin (FLAGS : Flags) (vms : list VirtualMachine)
  (s : Sample) :
  In s (boot_samples FLAGS vms) ->
  (exists (i : nat) (vm : VirtualMachine),
      nth_error vms i = Some vm
      /\ In s (instance_samples FLAGS (length vms) (reference_time vms) i vm))
  \/ In s (cluster_samples FLAGS (length vms)
             (loop_vars FLAGS (length vms) (reference_time vms) 0 vms
                boot_vars_init)).
Proof.
  unfold boot_samples. cbv zeta. rewrite in_app_iff.
  intros [H | H]; [left | now right].
  unfold loop_samples, loop_blocks in H. apply in_concat in H.
  destruct H as (block & Hb & Hs).
  apply In_nth_error in Hb. destruct Hb as [i Hb].
  rewrite nth_error_mapi in Hb.
  destruct (nth_error vms i) as [vm|] eqn:E; [|discriminate].
  injection Hb as <-. now exists i, vm.
Qed.

(** X9.  Every sample returned is in seconds.  A sample either carries the
    index of a machine of the list, with that machine's [OS_TYPE] and the
    number of machines, or carries no index and is one of the cluster-wide
    metrics. *)
Theorem sample_metadata (FLAGS : Flags) (vms : list VirtualMachine)
  (l : list Sample) (s : Sample) :
  GetTimeToBoot FLAGS vms = Ok l ->
  In s l ->
  unit_ s = "seconds"%string
  /\ lookup_meta "num_vms" (metadata s) = Some (MInt (Z.of_nat (length vms)))
  /\ ((exists (i : nat) (vm : VirtualMachine),
          nth_error vms i = Some vm
          /\ machine_instance s = Some (Z.of_nat i)
          /\ lookup_meta "os_type" (metadata s) = Some (MStr (OS_TYPE vm))
          /\ In (metric s) metric_order)
      \/ (machine_instance s = None
          /\ In (metric s) cluster_metric_order)).
Proof.
  intros Hl Hs.
  destruct (GetTimeToBoot_returns FLAGS vms l Hl) as (_ & He & Hb).
  destruct vms as [|v rest] eqn:E; [rewrite He in Hs by reflexivity; easy|].
  rewrite <- E in *. rewrite Hb in Hs by (rewrite E; discriminate).
  destruct (boot_samples_origin FLAGS vms s Hs)
    as [(i & vm & Hi & Hin) | Hin].
  - pose proof (instance_samples_unit FLAGS (length vms)
                  (reference_time vms) i vm) as Hu.
    pose proof (instance_samples_metadata FLAGS (length vms)
                  (reference_time vms) i vm) as Hm.
    pose proof (instance_samples_index FLAGS (length vms)
                  (reference_time vms) i vm) as Hx.
    rewrite Forall_forall in Hu, Hm, Hx.
    split; [now apply Hu|]. rewrite (Hm s Hin). split; [reflexivity|].
    left. exists i, vm. split; [exact Hi|]. split; [now apply Hx|].
    split; [reflexivity|].
    revert Hin. unfold instance_samples, optional_sample, flagged_sample.
    rewrite !in_app_iff.
    repeat match goal with
      | |- context [if ?b then _ else _] => destruct b
      end; simpl; intuition (subst; simpl; tauto).
  - pose proof (cluster_samples_unit FLAGS (length vms)
                  (loop_vars FLAGS (length vms) (reference_time vms) 0 vms
                     boot_vars_init)) as Hu.
    rewrite Forall_forall in Hu. destruct (Hu s Hin) as [H1 H2].
    split; [exact H1|]. rewrite H2. split; [reflexivity|]. right.
    split; [unfold machine_instance; now rewrite H2|].
    revert Hin. unfold cluster_samples.
    destruct (cluster_boot_test_port_listening FLAGS),
      (cluster_boot_test_rdp_port_listening FLAGS); simpl;
      intuition (subst; simpl; tauto).
Qed.

Lemma sample_metadata_witness :
  GetTimeToBoot no_flags scenario_A = Ok (boot_samples no_flags scenario_A)
  /\ In (Build_Sample "Boot Time" 13 seconds
           (instance_metadata 1 3 (basic_vm "debian" 101 113) 1))
       (boot_samples no_flags scenario_A)
  /\ lookup_meta "num_vms"
       (instance_metadata 1 3 (basic_vm "debian" 101 113) 1)
     = Some (MInt (Z.of_nat (length scenario_A))).
Proof.
  assert (Hin : In (Build_Sample "Boot Time" 13 seconds
                      (instance_metadata 1 3 (basic_vm "debian" 101 113) 1))
                  (boot_samples no_flags scenario_A))
    by (right; now left).
  split; [reflexivity|]. split; [exact Hin|].
  exact (proj1 (proj2 (sample_metadata no_flags scenario_A _ _ eq_refl Hin))).
Defined.

(** *** The operating systems of the cluster *)

Lemma add_os_types_spec (vms : list VirtualMachine) :
  forall s : set string,
    NoDup s ->
    NoDup (add_os_types vms s)
    /\ forall x, In x (add_os_types vms s)
                 <-> In x s \/ In x (map OS_TYPE vms).
Proof.
  unfold add_os_types.
  induction vms as [|vm rest IH]; intros s Hs; simpl.
  - split; [exact Hs | intros x; tauto].
  - destruct (IH (set_add string_dec (OS_TYPE vm) s)) as [H1 H2];
      [now apply set_add_nodup|].
    split; [exact H1|]. intros x. rewrite H2, set_add_iff.
    intuition (subst; auto).
Qed.

Lemma loop_vars_os_types (FLAGS : Flags) (n : nat) (m : Z)
  (vms : list VirtualMachine) :
  forall (i : nat) (st : BootVars),
    os_types (loop_vars FLAGS n m i vms st)
    = add_os_types vms (os_types st).
Proof.
  unfold add_os_types.
  induction vms as [|vm rest IH]; intros i st; simpl; [reflexivity|].
  now rewrite IH.
Qed.

Lemma insert_sorted_perm (s : string) (l : list string) :
  Permutation (insert_sorted s l) (s :: l).
Proof.
  induction l as [|x l IH]; simpl; [reflexivity|].
  destruct (String.leb s x); [reflexivity|].
  rewrite IH. apply perm_swap.
Qed.

Lemma sorted_perm (l : list string) : Permutation (sorted l) l.
Proof.
  unfold sorted. induction l as [|x l IH]; simpl; [reflexivity|].
  rewrite insert_sorted_perm. now constructor.
Qed.

Lemma insert_sorted_Sorted (s : string) (l : list string) :
  Sorted string_le l -> Sorted string_le (insert_sorted s l).
Proof.
  induction 1 as [|x l Hs IH Hd]; simpl; [repeat constructor|].
  destruct (String.leb s x) eqn:E.
  - constructor; [now constructor | now constructor].
  - constructor; [exact IH|].
    assert (Hxs : string_le x s).
    { destruct (String.leb_total s x) as [H | H]; [congruence | exact H]. }
    destruct Hd as [|y l' Hxy]; simpl; [now constructor|].
    destruct (String.leb s y); now constructor.
Qed.

Lemma sorted_Sorted (l : list string) : Sorted string_le (sorted l).
Proof.
  unfold sorted. induction l as [|x l IH]; simpl; [constructor|].
  now apply insert_sorted_Sorted.
Qed.

(** [sorted] of a set of strings: in order, without repetition, the same
    strings. *)
Lemma sorted_set (s : set string) :
  NoDup s ->
  Sorted string_le (sorted s)
  /\ NoDup (sorted s)
  /\ forall x, In x (sorted s) <-> In x s.
Proof.
  intros Hs. pose proof (sorted_perm s) as Hp.
  split; [apply sorted_Sorted|]. split.
  - eapply Permutation_NoDup; [symmetry; exact Hp | exact Hs].
  - intros x. split; apply Permutation_in; [exact Hp | now symmetry].
Qed.

(** X10.  The samples without machine index carry, as ['os_type'], the
    comma-joined list of the distinct [OS_TYPE]s of the machines in
    increasing order, and as ['max_create_delay_sec'] the greatest create
    delay, formatted, that delay being one Python converts to a double. *)
Theorem cluster_sample_metadata (FLAGS : Flags) (vms : list VirtualMachine)
  (l : list Sample) (s : Sample) :
  GetTimeToBoot FLAGS vms = Ok l ->
  In s l ->
  machine_instance s = None ->
  exists (names : list string) (M : Z),
    lookup_meta "os_type" (metadata s) = Some (MStr (join "," names))
    /\ Sorted string_le names
    /\ NoDup names
    /\ (forall x, In x names <-> In x (map OS_TYPE vms))
    /\ is_maximum M
         (map (fun vm => tval (create_start_time vm) - reference_time vms)
            vms)
    /\ (fits_double M ->
        lookup_meta "max_create_delay_sec" (metadata s)
        = Some (MStr (format_0_1f M))).
Proof.
  intros Hl Hs Hnone.
  destruct (GetTimeToBoot_returns FLAGS vms l Hl) as (Ha & He & Hb).
  destruct vms as [|v rest] eqn:E; [rewrite He in Hs by reflexivity; easy|].
  rewrite <- E in *.
  assert (Hne : vms <> []) by (rewrite E; discriminate).
  rewrite (Hb Hne) in Hs.
  destruct (boot_samples_origin FLAGS vms s Hs)
    as [(i & vm & Hi & Hin) | Hin].
  - pose proof (instance_samples_index FLAGS (length vms)
                  (reference_time vms) i vm) as Hx.
    rewrite Forall_forall in Hx. rewrite (Hx s Hin) in Hnone. discriminate.
  - set (st := loop_vars FLAGS (length vms) (reference_time vms) 0 vms
                 boot_vars_init) in *.
    pose proof (cluster_samples_unit FLAGS (length vms) st) as Hu.
    rewrite Forall_forall in Hu. destruct (Hu s Hin) as [_ Hmd].
    destruct (add_os_types_spec vms (empty_set string)) as [Hnd Hmem];
      [constructor|].
    destruct (sorted_set _ Hnd) as (H1 & H2 & H3).
    assert (Hos : os_types st = add_os_types vms (empty_set string))
      by apply loop_vars_os_types.
    rewrite <- Hos in H1, H2, H3, Hmem.
    exists (sorted (os_types st)), (max_create_delay_sec st).
    rewrite Hmd.
    split; [reflexivity|]. split; [exact H1|]. split; [exact H2|].
    split.
    + intros x. rewrite H3, Hmem. simpl. tauto.
    + split; [|reflexivity].
      apply (max_create_delay_maximum FLAGS vms Hne).
      now apply preconditions_forallb.
Qed.

Lemma cluster_sample_metadata_witness :
  GetTimeToBoot no_flags scenario_A = Ok (boot_samples no_flags scenario_A)
  /\ In (Build_Sample "Cluster Boot Time" 15 seconds
           [ ("num_vms"%string, MInt 3);
             ("os_type"%string, MStr "debian,ubuntu");
             ("max_create_delay_sec"%string, MStr "3.0") ])
       (boot_samples no_flags scenario_A)
  /\ exists (names : list string) (M : Z),
       Some (MStr "debian,ubuntu") = Some (MStr (join "," names))
       /\ Sorted string_le names
       /\ NoDup names
       /\ (forall x, In x names <-> In x (map OS_TYPE scenario_A))
       /\ is_maximum M
            (map (fun vm =>
                    tval (create_start_time vm) - reference_time scenario_A)
               scenario_A)
       /\ (fits_double M ->
           Some (MStr "3.0") = Some (MStr (format_0_1f M))).
Proof.
  assert (Hin : In (Build_Sample "Cluster Boot Time" 15 seconds
                      [ ("num_vms"%string, MInt 3);
                        ("os_type"%string, MStr "debian,ubuntu");
                        ("max_create_delay_sec"%string, MStr "3.0") ])
                  (boot_samples no_flags scenario_A))
    by (do 3 right; now left).
  split; [reflexivity|]. split; [exact Hin|].
  exact (cluster_sample_metadata no_flags scenario_A _ _ eq_refl Hin
           eq_refl).
Defined.

(** ** The order of the machines *)

Lemma is_minimum_unique (m m' : Z) (l : list Z) :
  is_minimum m l -> is_minimum m' l -> m = m'.
Proof.
  intros [H1 H2] [H3 H4]. rewrite Forall_forall in H2, H4.
  specialize (H2 m' H3). specialize (H4 m H1). lia.
Qed.

Lemma is_maximum_unique (M M' : Z) (l : list Z) :
  is_maximum M l -> is_maximum M' l -> M = M'.
Proof.
  intros [H1 H2] [H3 H4]. rewrite Forall_forall in H2, H4.
  specialize (H2 M' H3). specialize (H4 M H1). cbv beta in *. lia.
Qed.

Lemma is_minimum_perm (m : Z) (l l' : list Z) :
  Permutation l l' -> is_minimum m l -> is_minimum m l'.
Proof.
  intros Hp [H1 H2]. split.
  - eapply Permutation_in; eassumption.
  - eapply Permutation_Forall; eassumption.
Qed.

Lemma is_maximum_perm (M : Z) (l l' : list Z) :
  Permutation l l' -> is_maximum M l -> is_maximum M l'.
Proof.
  intros Hp [H1 H2]. split.
  - eapply Permutation_in; eassumption.
  - eapply Permutation_Forall; eassumption.
Qed.

Lemma reference_time_perm (vms vms' : list VirtualMachine) :
  Permutation vms vms' ->
  vms <> [] ->
  reference_time vms = reference_time vms'.
Proof.
  intros Hp Hne.
  assert (Hne' : vms' <> []).
  { intros ->. apply Permutation_sym, Permutation_nil in Hp.
    contradiction. }
  eapply is_minimum_unique; [|apply reference_time_minimum; exact Hne'].
  eapply is_minimum_perm; [|apply reference_time_minimum; exact Hne].
  now apply Permutation_map.
Qed.

Lemma values_named_boot_time (FLAGS : Flags) (vms : list VirtualMachine) :
  values_named "Boot Time" (boot_samples FLAGS vms)
  = map (fun vm => tval (bootable_time vm) - reference_time vms) vms.
Proof.
  unfold values_named. rewrite samples_named_boot_time, map_mapi.
  cbn [value]. apply mapi_const.
Qed.

(** X11.  The cluster does not depend on the order in which the machines
    are listed: listing them in another order gives the same
    "Cluster Boot Time" and the same "Boot Time" values, reordered. *)
Theorem cluster_boot_time_order_independent (FLAGS : Flags)
  (vms vms' : list VirtualMachine) :
  Permutation vms vms' ->
  vms <> [] ->
  Forall (preconditions FLAGS) vms ->
  exists l l' : list Sample,
    GetTimeToBoot FLAGS vms = Ok l
    /\ GetTimeToBoot FLAGS vms' = Ok l'
    /\ values_named "Cluster Boot Time" l
       = values_named "Cluster Boot Time" l'
    /\ Permutation (values_named "Boot Time" l)
         (values_named "Boot Time" l').
Proof.
  intros Hp Hne Hpre.
  assert (Hne' : vms' <> []).
  { intros ->. apply Permutation_sym, Permutation_nil in Hp.
    contradiction. }
  assert (Hpre' : Forall (preconditions FLAGS) vms')
    by (eapply Permutation_Forall; eassumption).
  exists (boot_samples FLAGS vms), (boot_samples FLAGS vms').
  split; [now apply GetTimeToBoot_total|].
  split; [now apply GetTimeToBoot_total|].
  pose proof (reference_time_perm vms vms' Hp Hne) as Href.
  assert (Hboots :
    Permutation
      (map (fun vm => tval (bootable_time vm) - reference_time vms) vms)
      (map (fun vm => tval (bootable_time vm) - reference_time vms') vms')).
  { rewrite <- Href. now apply Permutation_map. }
  split.
  - rewrite !values_named_cluster_boot_time. f_equal.
    assert (Hpos : forall ws, ws <> [] -> Forall (preconditions FLAGS) ws ->
              is_maximum
                (fold_left Z.max
                   (map (fun vm => tval (bootable_time vm)
                                   - reference_time ws) ws) 0)
                (map (fun vm => tval (bootable_time vm) - reference_time ws)
                   ws)).
    { intros ws Hw Hq. apply fold_max_from_zero.
      - destruct ws; [congruence | discriminate].
      - apply Forall_map. rewrite Forall_forall in *. intros vm Hin.
        destruct (preconditions_bounds FLAGS ws vm Hw Hin (Hq vm Hin))
          as (H1 & H2 & _). lia. }
    eapply is_maximum_unique; [|apply (Hpos vms' Hne' Hpre')].
    eapply is_maximum_perm; [exact Hboots | apply (Hpos vms Hne Hpre)].
  - now rewrite !values_named_boot_time.
Qed.

Lemma cluster_boot_time_order_independent_witness :
  Permutation scenario_A (rev scenario_A)
  /\ scenario_A <> []
  /\ Forall (preconditions no_flags) scenario_A
  /\ exists l l' : list Sample,
       GetTimeToBoot no_flags scenario_A = Ok l
       /\ GetTimeToBoot no_flags (rev scenario_A) = Ok l'
       /\ values_named "Cluster Boot Time" l
          = values_named "Cluster Boot Time" l'
       /\ Permutation (values_named "Boot Time" l)
            (values_named "Boot Time" l').
Proof.
  assert (Hpre : Forall (preconditions no_flags) scenario_A)
    by (apply preconditions_forallb; reflexivity).
  assert (Hp : Permutation scenario_A (rev scenario_A))
    by apply Permutation_rev.
  split; [exact Hp|]. split; [discriminate|]. split; [exact Hpre|].
  apply (cluster_boot_time_order_independent no_flags scenario_A
           (rev scenario_A) Hp); [discriminate | exact Hpre].
Defined.

(** * Further properties of the operations *)

(** ** [_GetVmOperationDataSamples] *)

Lemma operation_samples_nth (name : string) (n : nat)
  (vms : list VirtualMachine) :
  forall (i k : nat) (times : list Z) (s : Sample),
    nth_error (operation_samples name n i times vms) k = Some s ->
    exists (vm : VirtualMachine) (t : Z),
      nth_error vms k = Some vm
      /\ nth_error times k = Some t
      /\ s = Build_Sample name t seconds (operation_metadata n (i + k) vm).
Proof.
  unfold operation_samples.
  induction vms as [|vm rest IH]; intros i k [|t times] s H; simpl in H;
    try (destruct k; discriminate).
  destruct k as [|k]; simpl in H.
  - injection H as <-. exists vm, t. rewrite Nat.add_0_r. now repeat split.
  - destruct (IH (S i) k times s H) as (vm' & t' & H1 & H2 & H3).
    exists vm', t'. rewrite Nat.add_succ_r. now repeat split.
Qed.

Lemma operation_samples_length (name : string) (n i : nat)
  (times : list Z) (vms : list VirtualMachine) :
  length (operation_samples name n i times vms)
  = Nat.min (length times) (length vms).
Proof.
  unfold operation_samples.
  now rewrite length_map, length_combine, mapi_length.
Qed.

Lemma operation_samples_firstn (name : string) (n : nat)
  (vms : list VirtualMachine) :
  forall (i : nat) (times : list Z),
    map value (operation_samples name n i times vms)
    = firstn (length vms) times.
Proof.
  unfold operation_samples.
  induction vms as [|vm rest IH]; intros i [|t times]; simpl;
    try reflexivity.
  f_equal. apply IH.
Qed.

(** X12.  [_GetVmOperationDataSamples] pairs the times with the machines as
    [zip] does: it returns as many "<operation> Time" samples as the shorter
    of the two lists has items, their values being the first times in
    order, the i-th one carrying the index, the [OS_TYPE] of the i-th
    machine and the number of machines; then a single
    "Cluster <operation> Time" of the given cluster time.  Machines beyond
    the times get no sample, and times beyond the machines are dropped. *)
Theorem operation_samples_zip (operation_times : list Z) (cluster_time : Z)
  (operation : string) (vms : list VirtualMachine) :
  exists (per : list Sample) (c : Sample),
    _GetVmOperationDataSamples operation_times cluster_time operation vms
    = per ++ [c]
    /\ length per = Nat.min (length operation_times) (length vms)
    /\ map value per = firstn (length vms) operation_times
    /\ (forall (k : nat) (s : Sample),
          nth_error per k = Some s ->
          exists vm : VirtualMachine,
            nth_error vms k = Some vm
            /\ metric s = (operation ++ " Time")%string
            /\ unit_ s = "seconds"%string
            /\ metadata s = operation_metadata (length vms) k vm)
    /\ metric c = ("Cluster " ++ operation ++ " Time")%string
    /\ value c = cluster_time
    /\ unit_ c = "seconds"%string
    /\ machine_instance c = None.
Proof.
  destruct (GetVmOperationDataSamples_split operation_times cluster_time
              operation vms) as (md & Hmd & ->).
  do 2 eexists. split; [reflexivity|].
  split; [apply operation_samples_length|].
  split; [apply operation_samples_firstn|]. split.
  - intros k s Hk.
    destruct (operation_samples_nth _ _ _ _ _ _ _ Hk)
      as (vm & t & H1 & _ & ->).
    exists vm. now repeat split.
  - repeat split. unfold machine_instance. cbn [metadata]. now rewrite Hmd.
Qed.

Example fewer_times_than_machines :
  map (fun s => (metric s, value s, machine_instance s))
    (_GetVmOperationDataSamples [5] 8 "Reboot" two_vms)
  = [ ("Reboot Time"%string, 5, Some 0);
      ("Cluster Reboot Time"%string, 8, None) ].
Proof. reflexivity. Qed.

Example no_machine_at_all :
  _GetVmOperationDataSamples [5; 7] 8 "Reboot" []
  = [ Build_Sample "Cluster Reboot Time" 8 "seconds"
        [ ("num_vms"%string, MInt 0); ("os_type"%string, MStr "") ] ].
Proof. reflexivity. Qed.

(** X13.  The cluster sample of an operation carries the number of machines
    and, as ['os_type'], the comma-joined list of their distinct
    [OS_TYPE]s in increasing order. *)
Theorem operation_cluster_metadata (operation_times : list Z)
  (cluster_time : Z) (operation : string) (vms : list VirtualMachine) :
  exists names : list string,
    last (_GetVmOperationDataSamples operation_times cluster_time operation
            vms)
      (Build_Sample "" 0 "" [])
    = Build_Sample ("Cluster " ++ operation ++ " Time") cluster_time seconds
        [ ("num_vms"%string, MInt (Z.of_nat (length vms)));
          ("os_type"%string, MStr (join "," names)) ]
    /\ Sorted string_le names
    /\ NoDup names
    /\ forall x, In x names <-> In x (map OS_TYPE vms).
Proof.
  destruct (add_os_types_spec vms (empty_set string)) as [Hnd Hmem];
    [constructor|].
  destruct (sorted_set _ Hnd) as (H1 & H2 & H3).
  exists (sorted (add_os_types vms (empty_set string))).
  split; [|split; [exact H1 | split; [exact H2|]]].
  - unfold _GetVmOperationDataSamples. cbv zeta. now rewrite last_last.
  - intros x. rewrite H3, Hmem. simpl. tauto.
Qed.

(** ** Failures and bounds of [MeasureDelete] *)

Lemma map_result_unset (vms : list VirtualMachine) :
  Exists (fun vm => delete_start_time vm = None
                    \/ delete_end_time vm = None) vms ->
  map_result (fun vm => py_sub (delete_end_time vm) (delete_start_time vm))
    vms
  = Raise TypeError.
Proof.
  induction vms as [|vm rest IH]; intros H; [inversion H|]. simpl.
  destruct (delete_end_time vm) as [e|] eqn:He; [|reflexivity].
  destruct (delete_start_time vm) as [s|] eqn:Hs; [|reflexivity].
  simpl. rewrite IH; [reflexivity|].
  apply Exists_cons in H. destruct H as [[H | H] | H]; [| | exact H];
    congruence.
Qed.

(** The greatest [delete_end_time], as [max] returns it. *)
Lemma max_delete_end_time_set (vms : list VirtualMachine) :
  vms <> [] ->
  Forall (fun vm => is_set (delete_start_time vm)
                    /\ is_set (delete_end_time vm)) vms ->
  exists M : Z,
    py_max (map Some (map (fun vm => tval (delete_end_time vm)) vms))
    = Ok (Some M)
    /\ is_maximum M (map (fun vm => tval (delete_end_time vm)) vms).
Proof.
  intros Hne _. apply py_max_set. now destruct vms.
Qed.

Section DeleteProperties.

Variable World : Type.
Variable time_time : World -> Z * World.
Variable RunThreaded_Delete :
  list VirtualMachine -> World -> result (list VirtualMachine) * World.

(** X16.  How [MeasureDelete] fails.  An exception of a delete task is
    raised on; with no machine at all [max] raises [ValueError]; a machine
    whose delete timestamps were not both set raises [TypeError]. *)
Theorem delete_failures (vms : list VirtualMachine) (w w1 w2 : World)
  (t0 : Z) :
  time_time w = (t0, w1) ->
  (forall e : PyError,
      RunThreaded_Delete vms w1 = (Raise e, w2) ->
      MeasureDelete World time_time RunThreaded_Delete vms w
      = (Raise e, w2))
  /\ (RunThreaded_Delete vms w1 = (Ok [], w2) ->
      MeasureDelete World time_time RunThreaded_Delete vms w
      = (Raise ValueError, w2))
  /\ (forall vms' : list VirtualMachine,
        RunThreaded_Delete vms w1 = (Ok vms', w2) ->
        Exists (fun vm => delete_start_time vm = None
                          \/ delete_end_time vm = None) vms' ->
        MeasureDelete World time_time RunThreaded_Delete vms w
        = (Raise TypeError, w2)).
Proof.
  intros H0.
  split; [|split]; intros; unfold MeasureDelete, act_bind, act_time,
    act_lift.
  - now rewrite H0, H.
  - now rewrite H0, H.
  - rewrite H0, H. now rewrite map_result_unset.
Qed.

(** X17.  When no delete task starts before the clock reading [t0] taken
    before the fan-out, no "Delete Time" exceeds the
    "Cluster Delete Time". *)
Theorem delete_time_below_cluster (vms vms' : list VirtualMachine)
  (w w1 w2 : World) (t0 : Z) :
  time_time w = (t0, w1) ->
  RunThreaded_Delete vms w1 = (Ok vms', w2) ->
  vms' <> [] ->
  Forall (fun vm => exists s e : Z,
              delete_start_time vm = Some s
              /\ delete_end_time vm = Some e /\ t0 <= s) vms' ->
  exists (l : list Sample) (C : Z),
    MeasureDelete World time_time RunThreaded_Delete vms w = (Ok l, w2)
    /\ values_named "Cluster Delete Time" l = [C]
    /\ Forall (fun v => v <= C) (values_named "Delete Time" l).
Proof.
  intros H0 Hrun Hne Hstart.
  assert (Hset : Forall (fun vm => is_set (delete_start_time vm)
                                   /\ is_set (delete_end_time vm)) vms').
  { eapply Forall_impl; [|exact Hstart].
    intros vm (s & e & -> & -> & _). split; discriminate. }
  destruct (max_delete_end_time_set vms') as (M & HM & Hmax);
    [exact Hne | exact Hset|].
  set (times := map (fun vm => tval (delete_end_time vm)
                               - tval (delete_start_time vm)) vms').
  exists (_GetVmOperationDataSamples times (M - t0) "Delete" vms'), (M - t0).
  assert (Hlen : length times = length vms') by apply length_map.
  destruct (operation_values times (M - t0) vms' "Delete" eq_refl Hlen)
    as (Hv & _ & Hc).
  split; [|split; [exact Hc|]].
  - unfold MeasureDelete, act_bind, act_time, act_ret, act_lift.
    rewrite H0, Hrun, (map_result_set vms' Hset).
    now rewrite (set_delete_end_times vms' Hset), HM.
  - cbn [String.append] in Hv. rewrite Hv. unfold times. apply Forall_map.
    destruct Hmax as [_ Hmax]. rewrite Forall_map in Hmax.
    rewrite Forall_forall in *. intros vm Hin.
    destruct (Hstart vm Hin) as (s & e & Hs & He & Hle).
    specialize (Hmax vm Hin). cbv beta in Hmax.
    rewrite Hs, He in *. simpl in *. lia.
Qed.

End DeleteProperties.

Lemma delete_failures_witness :
  clock_time 0 = (0, 0)
  /\ (failing_delete two_vms 0 = (Raise ValueError, 3)
      /\ MeasureDelete Z clock_time failing_delete two_vms 0
         = (Raise ValueError, 3))
  /\ (delete_none two_vms 0 = (Ok [], 0)
      /\ MeasureDelete Z clock_time delete_none two_vms 0
         = (Raise ValueError, 0))
  /\ (delete_untimed two_vms 0 = (Ok two_vms, 3)
      /\ Exists (fun vm => delete_start_time vm = None
                           \/ delete_end_time vm = None) two_vms
      /\ MeasureDelete Z clock_time delete_untimed two_vms 0
         = (Raise TypeError, 3)).
Proof.
  assert (Hun : Exists (fun vm => delete_start_time vm = None
                                  \/ delete_end_time vm = None) two_vms)
    by (apply Exists_cons_hd; now left).
  split; [reflexivity|]. split; [|split].
  - split; [reflexivity|].
    exact (proj1 (delete_failures Z clock_time failing_delete two_vms
                    0 0 3 0 eq_refl) ValueError eq_refl).
  - split; [reflexivity|].
    exact (proj1 (proj2 (delete_failures Z clock_time delete_none two_vms
                           0 0 0 0 eq_refl)) eq_refl).
  - split; [reflexivity|]. split; [exact Hun|].
    exact (proj2 (proj2 (delete_failures Z clock_time delete_untimed two_vms
                           0 0 3 0 eq_refl)) two_vms eq_refl Hun).
Defined.

Lemma deleted_vms_start_late :
  Forall (fun vm => exists s e : Z,
              delete_start_time vm = Some s
              /\ delete_end_time vm = Some e /\ 0 <= s) deleted_vms.
Proof.
  repeat constructor; simpl; do 2 eexists;
    (split; [reflexivity | split; [reflexivity | lia]]).
Qed.

Lemma delete_time_below_cluster_witness :
  clock_time 0 = (0, 0)
  /\ scenario_C_delete two_vms 0 = (Ok deleted_vms, 9)
  /\ deleted_vms <> []
  /\ Forall (fun vm => exists s e : Z,
                delete_start_time vm = Some s
                /\ delete_end_time vm = Some e /\ 0 <= s) deleted_vms
  /\ exists (l : list Sample) (C : Z),
       MeasureDelete Z clock_time scenario_C_delete two_vms 0 = (Ok l, 9)
       /\ values_named "Cluster Delete Time" l = [C]
       /\ Forall (fun v => v <= C) (values_named "Delete Time" l).
Proof.
  split; [reflexivity|]. split; [reflexivity|]. split; [discriminate|].
  split; [exact deleted_vms_start_late|].
  apply (delete_time_below_cluster Z clock_time scenario_C_delete two_vms
           deleted_vms 0 0 9 0 eq_refl eq_refl);
    [discriminate | exact deleted_vms_start_late].
Defined.

(** * A cluster of one machine *)

(** X18.  A single machine is its own reference: its create delay is zero,
    no warning is logged, and the "Cluster Boot Time" is its "Boot Time",
    [bootable_time - create_start_time]. *)
Theorem single_machine (FLAGS : Flags) (vm : VirtualMachine) (c b : Z) :
  preconditions FLAGS vm ->
  create_start_time vm = Some c ->
  bootable_time vm = Some b ->
  exists l : list Sample,
    GetTimeToBoot_logged FLAGS [vm] = Ok (l, [])
    /\ values_named "Boot Time" l = [b - c]
    /\ values_named "Cluster Boot Time" l = [b - c]
    /\ forall s : Sample,
         In s l ->
         machine_instance s = Some 0 ->
         lookup_meta "create_delay_sec" (metadata s) = Some (MStr "0.0").
Proof.
  intros Hpre Hc Hb.
  assert (Hall : Forall (preconditions FLAGS) [vm]) by now constructor.
  assert (Hne : [vm] <> []) by discriminate.
  assert (Href : reference_time [vm] = c).
  { unfold reference_time, min_of. simpl. now rewrite Hc. }
  assert (Hcb : c <= b).
  { destruct (preconditions_bounds FLAGS [vm] vm Hne (or_introl eq_refl)
                Hpre) as (_ & H & _).
    now rewrite Hc, Hb in H. }
  exists (boot_samples FLAGS [vm]).
  rewrite (GetTimeToBoot_logged_total FLAGS [vm] Hne Hall).
  split; [|split; [|split]].
  - f_equal. f_equal. unfold create_delay_warnings.
    rewrite loop_vars_max_create_delay.
    cbn [map fold_left boot_vars_init max_create_delay_sec].
    rewrite Href, Hc. cbn [tval]. rewrite Z.sub_diag. reflexivity.
  - rewrite values_named_boot_time. cbn [map]. now rewrite Href, Hb.
  - rewrite values_named_cluster_boot_time. cbn [map fold_left].
    rewrite Href, Hb. cbn [tval]. f_equal. lia.
  - intros s Hs Hidx.
    assert (Hf : In s (filter (of_instance 0) (boot_samples FLAGS [vm]))).
    { apply filter_In. split; [exact Hs|]. unfold of_instance.
      now rewrite Hidx. }
    rewrite of_instance_boot_samples in Hf. cbn [nth_error length] in Hf.
    pose proof (instance_samples_metadata FLAGS 1 (reference_time [vm]) 0
                  vm) as Hmd.
    rewrite Forall_forall in Hmd. rewrite (Hmd s Hf), Href, Hc.
    cbn [tval]. now rewrite Z.sub_diag.
Qed.

Lemma single_machine_witness :
  preconditions no_flags (basic_vm "debian" 100 110)
  /\ exists l : list Sample,
       GetTimeToBoot_logged no_flags [basic_vm "debian" 100 110]
       = Ok (l, [])
       /\ values_named "Boot Time" l = [110 - 100]
       /\ values_named "Cluster Boot Time" l = [110 - 100]
       /\ forall s : Sample,
            In s l ->
            machine_instance s = Some 0 ->
            lookup_meta "create_delay_sec" (metadata s)
            = Some (MStr "0.0").
Proof.
  assert (Hpre : preconditions no_flags (basic_vm "debian" 100 110))
    by (apply preconditions_asserts; reflexivity).
  split; [exact Hpre|].
  exact (single_machine no_flags (basic_vm "debian" 100 110) 100 110 Hpre
           eq_refl eq_refl).
Defined.
